(** * A shallow embedding of the uesave GVAS SaveGame codec

    The Python package [uesave/__init__.py] (and, for the custom-versions
    header variants, the standalone script [uesave.py]) is modelled here.

    Modelling conventions.
    - A Python [bytes] value is a [list Z] whose elements lie in [0, 255].
    - A Python [str] is the list of its code points, also a [list Z].
    - Python exceptions are the constructors of [exn]; a computation that may
      raise returns a [result].
    - Offsets are Python integers ([Z]); slicing and indexing follow Python's
      rules, including negative indices.
    - [float] values (FloatProperty, DoubleProperty, Quat, Vector) are kept as
      the IEEE bit pattern that [struct.unpack] read, which [struct.pack]
      writes back. *)

From Stdlib Require Import String Ascii ZArith List Bool Lia.
Import ListNotations.
Open Scope Z_scope.
Set Warnings "-register-all".

(** ** Exceptions and the error monad *)

Inductive exn :=
| StructError              (* struct.error: buffer too short / out of range *)
| IndexError               (* bytes index out of range *)
| AssertionError
| ValueError
| UnicodeEncodeError
| NotImplementedError
| RecursionError           (* recursion depth exhausted *)
| DecompressionError (msg : list Z).

Inductive result (A : Type) : Type :=
| Ok (a : A)
| Err (e : exn).
Arguments Ok {A} a.
Arguments Err {A} e.

Definition bind {A B} (m : result A) (k : A -> result B) : result B :=
  match m with Ok a => k a | Err e => Err e end.

Notation "x <- m ;; k" := (bind m (fun x => k))
  (at level 61, m at next level, right associativity).
Notation "' p <- m ;; k" := (bind m (fun x => match x with p => k end))
  (at level 61, p pattern, m at next level, right associativity).

Definition assert_ (b : bool) : result unit :=
  if b then Ok tt else Err AssertionError.

Definition bytes := list Z.
Definition pystr := list Z.

(** A Rocq string literal as a Python [str] (ASCII only). *)
Fixpoint lit (s : string) : pystr :=
  match s with
  | EmptyString => []
  | String c r => Z.of_nat (nat_of_ascii c) :: lit r
  end.

Definition str_eqb (a b : pystr) : bool :=
  if list_eq_dec Z.eq_dec a b then true else false.

(** ** Python sequence primitives *)

Definition py_len {A} (l : list A) : Z := Z.of_nat (length l).

(** [data[a:b]] *)
Definition py_norm (n i : Z) : Z :=
  if i <? 0 then Z.max 0 (i + n) else Z.min i n.

Definition py_slice {A} (l : list A) (a b : Z) : list A :=
  let n := py_len l in
  let a' := py_norm n a in
  let b' := py_norm n b in
  firstn (Z.to_nat (b' - a')) (skipn (Z.to_nat a') l).

(** [data[i]] *)
Definition py_index (l : bytes) (i : Z) : result Z :=
  let n := py_len l in
  let i' := if i <? 0 then i + n else i in
  if (0 <=? i') && (i' <? n) then Ok (nth (Z.to_nat i') l 0) else Err IndexError.

(** little-endian value of a byte list *)
Fixpoint le_val (bs : bytes) : Z :=
  match bs with
  | [] => 0
  | b :: r => b + 256 * le_val r
  end.

Fixpoint le_bytes (k : nat) (v : Z) : bytes :=
  match k with
  | O => []
  | S k' => (v mod 256) :: le_bytes k' (v / 256)
  end.

(** [struct.unpack_from(fmt, data, off)] for a format of [k] bytes: raw bytes *)
Definition unpack_raw (k : Z) (data : bytes) (off : Z) : result bytes :=
  let n := py_len data in
  if (off <? 0) && (off + n <? 0) then Err StructError
  else
    let off' := if off <? 0 then off + n else off in
    if n - off' <? k then Err StructError
    else Ok (firstn (Z.to_nat k) (skipn (Z.to_nat off') data)).

Definition to_signed (bits v : Z) : Z :=
  if v <? 2 ^ (bits - 1) then v else v - 2 ^ bits.

Definition _read_u32 (data : bytes) (off : Z) : result (Z * Z) :=
  bs <- unpack_raw 4 data off ;; Ok (le_val bs, off + 4).

Definition _read_i32 (data : bytes) (off : Z) : result (Z * Z) :=
  bs <- unpack_raw 4 data off ;; Ok (to_signed 32 (le_val bs), off + 4).

Definition _read_u16 (data : bytes) (off : Z) : result (Z * Z) :=
  bs <- unpack_raw 2 data off ;; Ok (le_val bs, off + 2).

(** [struct.unpack_from('<q' | '<Q' | '<f' | '<d', ...)]: the raw value *)
Definition unpack_i64 (data : bytes) (off : Z) : result Z :=
  bs <- unpack_raw 8 data off ;; Ok (to_signed 64 (le_val bs)).
Definition unpack_u64 (data : bytes) (off : Z) : result Z :=
  bs <- unpack_raw 8 data off ;; Ok (le_val bs).
Definition unpack_f32 (data : bytes) (off : Z) : result Z :=
  bs <- unpack_raw 4 data off ;; Ok (le_val bs).
Definition unpack_f64 (data : bytes) (off : Z) : result Z :=
  bs <- unpack_raw 8 data off ;; Ok (le_val bs).

(** Writers: each returns the bytes that [data.extend] appends. *)
Definition _write_u32 (v : Z) : bytes := le_bytes 4 (Z.land v (2 ^ 32 - 1)).
Definition _write_u16 (v : Z) : bytes := le_bytes 2 (Z.land v (2 ^ 16 - 1)).

(** [struct.pack('<i', v)] raises unless [-2^31 <= v < 2^31] *)
Definition _write_i32 (v : Z) : result bytes :=
  if (- 2 ^ 31 <=? v) && (v <? 2 ^ 31) then Ok (le_bytes 4 (v mod 2 ^ 32))
  else Err StructError.

(** ** Text codecs (Python's [str.encode] / [bytes.decode(errors='ignore')]) *)

Definition is_surrogate (c : Z) : bool := (55296 <=? c) && (c <=? 57343).

Definition utf8_encode_cp (c : Z) : bytes :=
  if c <? 128 then [c]
  else if c <? 2048 then [192 + c / 64; 128 + c mod 64]
  else if c <? 65536 then [224 + c / 4096; 128 + (c / 64) mod 64; 128 + c mod 64]
  else [240 + c / 262144; 128 + (c / 4096) mod 64; 128 + (c / 64) mod 64;
        128 + c mod 64].

(** [s.encode('utf-8')]: raises on a lone surrogate *)
Definition utf8_encode (s : pystr) : result bytes :=
  if existsb is_surrogate s then Err UnicodeEncodeError
  else Ok (flat_map utf8_encode_cp s).

(** [s.encode('utf-16-le', errors='ignore')]: lone surrogates are dropped *)
Definition utf16le_encode_ignore (s : pystr) : bytes :=
  flat_map (fun c =>
    if is_surrogate c then []
    else if c <? 65536 then le_bytes 2 c
    else let c' := c - 65536 in
         le_bytes 2 (55296 + c' / 1024) ++ le_bytes 2 (56320 + c' mod 1024)) s.

Definition in_rng (lo hi b : Z) : bool := (lo <=? b) && (b <=? hi).
Definition is_cont (b : Z) : bool := in_rng 128 191 b.

(** [raw.decode('utf-8', errors='ignore')]: CPython's decoder drops an invalid
    start byte alone, and an invalid or truncated sequence up to the first
    byte that does not continue it. *)
Fixpoint utf8_decode_ignore (bs : bytes) : pystr :=
  match bs with
  | [] => []
  | b0 :: r0 =>
    if b0 <? 128 then b0 :: utf8_decode_ignore r0
    else if in_rng 194 223 b0 then
      match r0 with
      | b1 :: r1 =>
        if is_cont b1 then (Z.land b0 31 * 64 + Z.land b1 63) :: utf8_decode_ignore r1
        else utf8_decode_ignore r0
      | [] => []
      end
    else if in_rng 224 239 b0 then
      let lo := if b0 =? 224 then 160 else 128 in
      let hi := if b0 =? 237 then 159 else 191 in
      match r0 with
      | b1 :: r1 =>
        if in_rng lo hi b1 then
          match r1 with
          | b2 :: r2 =>
            if is_cont b2 then
              (Z.land b0 15 * 4096 + Z.land b1 63 * 64 + Z.land b2 63)
                :: utf8_decode_ignore r2
            else utf8_decode_ignore r1
          | [] => []
          end
        else utf8_decode_ignore r0
      | [] => []
      end
    else if in_rng 240 244 b0 then
      let lo := if b0 =? 240 then 144 else 128 in
      let hi := if b0 =? 244 then 143 else 191 in
      match r0 with
      | b1 :: r1 =>
        if in_rng lo hi b1 then
          match r1 with
          | b2 :: r2 =>
            if is_cont b2 then
              match r2 with
              | b3 :: r3 =>
                if is_cont b3 then
                  (Z.land b0 7 * 262144 + Z.land b1 63 * 4096 + Z.land b2 63 * 64
                   + Z.land b3 63) :: utf8_decode_ignore r3
                else utf8_decode_ignore r2
              | [] => []
              end
            else utf8_decode_ignore r1
          | [] => []
          end
        else utf8_decode_ignore r0
      | [] => []
      end
    else utf8_decode_ignore r0
  end.

(** [raw.decode('utf-16-le', errors='ignore')]: a trailing odd byte and a high
    surrogate at the end are dropped; an unpaired surrogate unit is dropped. *)
Fixpoint utf16le_decode_ignore (bs : bytes) : pystr :=
  match bs with
  | a0 :: a1 :: r =>
    let u := a0 + 256 * a1 in
    if negb (is_surrogate u) then u :: utf16le_decode_ignore r
    else if u <? 56320 then
      match r with
      | c0 :: c1 :: r' =>
        let u2 := c0 + 256 * c1 in
        if in_rng 56320 57343 u2 then
          (65536 + (u - 55296) * 1024 + (u2 - 56320)) :: utf16le_decode_ignore r'
        else utf16le_decode_ignore r
      | _ => []
      end
    else utf16le_decode_ignore r
  | _ => []
  end.

(** [s.rstrip('\x00')] *)
Definition rstrip_nul (s : pystr) : pystr :=
  rev ((fix drop (l : pystr) := match l with 0 :: r => drop r | _ => l end) (rev s)).

(** ** FString codec *)

Definition _read_string (data : bytes) (offset : Z) : result (pystr * Z) :=
  '(strlen, offset) <- _read_i32 data offset ;;
  if strlen =? 0 then Ok ([], offset)
  else if strlen <? 0 then
    let count := - strlen in
    let nbytes := count * 2 in
    let raw := py_slice data offset (offset + nbytes) in
    Ok (rstrip_nul (utf16le_decode_ignore raw), offset + nbytes)
  else
    let raw := py_slice data offset (offset + strlen) in
    Ok (rstrip_nul (utf8_decode_ignore raw), offset + strlen).

(** The [try] block has already appended the first length when
    [s.encode('utf-8')] raises. *)
Definition _write_string (s : pystr) : result bytes :=
  match s with
  | [] => _write_i32 0
  | _ =>
    l1 <- _write_i32 (py_len s + 1) ;;
    match utf8_encode s with
    | Ok enc => Ok (l1 ++ enc ++ [0])
    | Err UnicodeEncodeError =>
      l2 <- _write_i32 (- (py_len s * 2 + 1)) ;;
      Ok (l1 ++ l2 ++ utf16le_encode_ignore s ++ [0; 0])
    | Err e => Err e
    end
  end.

(** ** GUID codec *)

Definition hex_digit (d : Z) : Z := if d <? 10 then 48 + d else 87 + d.

(** [bytes.hex()]: two lowercase digits per byte *)
Definition hex (bs : bytes) : pystr :=
  flat_map (fun b => [hex_digit (b / 16); hex_digit (b mod 16)]) bs.

Definition dash : Z := 45.

Definition render_guid (g : bytes) : pystr :=
  hex (rev (py_slice g 0 4)) ++ [dash] ++ hex (rev (py_slice g 4 6)) ++ [dash] ++
  hex (rev (py_slice g 6 8)) ++ [dash] ++ hex (py_slice g 8 10) ++ [dash] ++
  hex (py_slice g 10 16).

Definition _read_guid (data : bytes) (offset : Z) : pystr * Z :=
  let guid := py_slice data offset (offset + 16) in
  if negb (length guid =? 16)%nat then ([], offset + 16)
  else (render_guid guid, offset + 16).

(** [str.split('-')] *)
Fixpoint split_on (sep : Z) (s : pystr) : list pystr :=
  match s with
  | [] => [[]]
  | c :: r =>
    if c =? sep then [] :: split_on sep r
    else match split_on sep r with
         | p :: ps => (c :: p) :: ps
         | [] => [[c]]
         end
  end.

Definition hex_val (c : Z) : option Z :=
  if in_rng 48 57 c then Some (c - 48)
  else if in_rng 97 102 c then Some (c - 87)
  else if in_rng 65 70 c then Some (c - 55)
  else None.

(** ASCII whitespace as [bytes.fromhex] skips it between pairs *)
Definition is_space (c : Z) : bool :=
  (c =? 32) || in_rng 9 13 c.

(** [bytes.fromhex(s)] *)
Fixpoint fromhex (s : pystr) : result bytes :=
  match s with
  | [] => Ok []
  | c :: r =>
    if is_space c then fromhex r
    else match r with
         | d :: r' =>
           match hex_val c, hex_val d with
           | Some h, Some l => rest <- fromhex r' ;; Ok ((h * 16 + l) :: rest)
           | _, _ => Err ValueError
           end
         | [] => Err ValueError
         end
  end.

Definition zeros16 : bytes := repeat 0 16.

Definition _write_guid (guid : pystr) : bytes :=
  match split_on dash guid with
  | [p1; p2; p3; p4; p5] =>
    let attempt :=
      b1 <- fromhex p1 ;; b2 <- fromhex p2 ;; b3 <- fromhex p3 ;;
      b4 <- fromhex p4 ;; b5 <- fromhex p5 ;;
      if (length b1 =? 4)%nat && (length b2 =? 2)%nat && (length b3 =? 2)%nat
         && (length b4 =? 2)%nat && (length b5 =? 6)%nat
      then Ok (rev b1 ++ rev b2 ++ rev b3 ++ b4 ++ b5)
      else Err ValueError in
    match attempt with Ok bs => bs | Err _ => zeros16 end
  | _ => zeros16
  end.

(** ** The property tree *)

(** [ByteProperty._value]: an [int] when [size == 1], else an enum member name *)
Inductive byte_value :=
| BVInt (v : Z)
| BVStr (s : pystr).

(** One constructor per [Property] subclass; the first three fields are the
    [_name], [_tag] and [_size] of the base class. *)
Inductive property :=
| ArrayProperty (name : pystr) (tag size : Z) (inner_type : pystr) (array_size : Z)
    (values : array_values)
| BoolProperty (name : pystr) (tag size : Z) (value : bool)
| ByteProperty (name : pystr) (tag size : Z) (guid : pystr) (value : byte_value)
| DoubleProperty (name : pystr) (tag size : Z) (value : Z)
| FloatProperty (name : pystr) (tag size : Z) (value : Z)
| Int64Property (name : pystr) (tag size : Z) (value : Z)
| IntProperty (name : pystr) (tag size : Z) (value : Z) (int_tag : Z)
| MapProperty (name : pystr) (tag size : Z) (key_type value_type : pystr) (map_size : Z)
    (raw_bytes : bytes)
| NameProperty (name : pystr) (tag size : Z) (value : pystr)
| ObjectProperty (name : pystr) (tag size : Z) (value : pystr)
| StrProperty (name : pystr) (tag size : Z) (value : pystr)
| StructProperty (name : pystr) (tag size : Z) (type : pystr) (guid : pystr)
    (fields : list property)
| TextProperty (name : pystr) (tag size : Z) (value : bytes)
| UInt64Property (name : pystr) (tag size : Z) (value : Z)
(** [ArrayProperty._values]: raw [bytes] for [ByteProperty] and unknown inner
    types, otherwise the list the reader builds *)
with array_values :=
| AVRaw (b : bytes)
| AVStrs (l : list pystr)
| AVInts (l : list Z)
| AVProps (l : list property)
| AVFloats (l : list Z).

Definition prop_name (p : property) : pystr :=
  match p with
  | ArrayProperty n _ _ _ _ _ | BoolProperty n _ _ _ | ByteProperty n _ _ _ _
  | DoubleProperty n _ _ _ | FloatProperty n _ _ _ | Int64Property n _ _ _
  | IntProperty n _ _ _ _ | MapProperty n _ _ _ _ _ _ | NameProperty n _ _ _
  | ObjectProperty n _ _ _ | StrProperty n _ _ _ | StructProperty n _ _ _ _ _
  | TextProperty n _ _ _ | UInt64Property n _ _ _ => n
  end.

Definition prop_tag (p : property) : Z :=
  match p with
  | ArrayProperty _ t _ _ _ _ | BoolProperty _ t _ _ | ByteProperty _ t _ _ _
  | DoubleProperty _ t _ _ | FloatProperty _ t _ _ | Int64Property _ t _ _
  | IntProperty _ t _ _ _ | MapProperty _ t _ _ _ _ _ | NameProperty _ t _ _
  | ObjectProperty _ t _ _ | StrProperty _ t _ _ | StructProperty _ t _ _ _ _
  | TextProperty _ t _ _ | UInt64Property _ t _ _ => t
  end.

(** [prop.size]: [BoolProperty] and [FloatProperty] override the getter. *)
Definition prop_size (p : property) : Z :=
  match p with
  | BoolProperty _ _ _ _ => 0
  | FloatProperty _ _ _ _ => 4
  | ArrayProperty _ _ s _ _ _ | ByteProperty _ _ s _ _
  | DoubleProperty _ _ s _ | Int64Property _ _ s _
  | IntProperty _ _ s _ _ | MapProperty _ _ s _ _ _ _ | NameProperty _ _ s _
  | ObjectProperty _ _ s _ | StrProperty _ _ s _ | StructProperty _ _ s _ _ _
  | TextProperty _ _ s _ | UInt64Property _ _ s _ => s
  end.

(** [prop.__class__.__name__] *)
Definition class_name (p : property) : pystr :=
  lit match p with
  | ArrayProperty _ _ _ _ _ _ => "ArrayProperty"
  | BoolProperty _ _ _ _ => "BoolProperty"
  | ByteProperty _ _ _ _ _ => "ByteProperty"
  | DoubleProperty _ _ _ _ => "DoubleProperty"
  | FloatProperty _ _ _ _ => "FloatProperty"
  | Int64Property _ _ _ _ => "Int64Property"
  | IntProperty _ _ _ _ _ => "IntProperty"
  | MapProperty _ _ _ _ _ _ _ => "MapProperty"
  | NameProperty _ _ _ _ => "NameProperty"
  | ObjectProperty _ _ _ _ => "ObjectProperty"
  | StrProperty _ _ _ _ => "StrProperty"
  | StructProperty _ _ _ _ _ _ => "StructProperty"
  | TextProperty _ _ _ _ => "TextProperty"
  | UInt64Property _ _ _ _ => "UInt64Property"
  end.

(** ** Reader *)

(** [data[offset] == 0] asserted, then [offset += 1] *)
Definition skip_null (data : bytes) (offset : Z) : result Z :=
  b <- py_index data offset ;; _ <- assert_ (b =? 0) ;; Ok (offset + 1).

(** [for i in range(n): value, offset = rd(data, offset); values.append(value)] *)
Fixpoint read_n {A} (n : nat) (rd : Z -> result (A * Z)) (offset : Z)
  : result (list A * Z) :=
  match n with
  | O => Ok ([], offset)
  | S n' =>
    '(v, offset) <- rd offset ;;
    '(vs, offset) <- read_n n' rd offset ;;
    Ok (v :: vs, offset)
  end.

Definition read_f32 (data : bytes) (offset : Z) : result (Z * Z) :=
  v <- unpack_f32 data offset ;; Ok (v, offset + 4).

Section Recursive.
(** [rp] is [_read_property] one recursion level down. *)
Variable rp : bytes -> Z -> result (option property * Z).

(** [while offset < end_offset: value, offset = _read_property(...);
     if value is None: break; values.append(value)]; [fuel] bounds the
    number of iterations. *)
Fixpoint read_until (fuel : nat) (data : bytes) (offset end_offset : Z)
  : result (list property * Z) :=
  match fuel with
  | O => Err RecursionError
  | S f =>
    if offset <? end_offset then
      '(v, offset) <- rp data offset ;;
      match v with
      | None => Ok ([], offset)
      | Some p => '(ps, offset) <- read_until f data offset end_offset ;; Ok (p :: ps, offset)
      end
    else Ok ([], offset)
  end.

Definition ArrayProperty_from_bytes (fuel : nat) (name : pystr) (prop_size prop_tag : Z)
    (data : bytes) (offset : Z) : result (property * Z) :=
  '(inner_type, offset) <- _read_string data offset ;;
  offset <- skip_null data offset ;;
  '(array_size, offset) <- _read_u32 data offset ;;
  let mk v := ArrayProperty name prop_tag prop_size inner_type array_size v in
  if str_eqb inner_type (lit "ByteProperty") then
    let values := py_slice data offset (offset + prop_size) in
    Ok (mk (AVRaw values), offset + (prop_size - 4))
  else if str_eqb inner_type (lit "StrProperty") || str_eqb inner_type (lit "NameProperty") then
    '(values, offset) <- read_n (Z.to_nat array_size) (_read_string data) offset ;;
    Ok (mk (AVStrs values), offset)
  else if str_eqb inner_type (lit "IntProperty") then
    '(values, offset) <- read_n (Z.to_nat array_size) (_read_i32 data) offset ;;
    Ok (mk (AVInts values), offset)
  else if str_eqb inner_type (lit "StructProperty") then
    '(values, offset) <- read_until fuel data offset (offset + prop_size) ;;
    Ok (mk (AVProps values), offset)
  else if str_eqb inner_type (lit "FloatProperty") then
    '(values, offset) <- read_n (Z.to_nat array_size) (read_f32 data) offset ;;
    Ok (mk (AVFloats values), offset)
  else
    let values := py_slice data offset (offset + prop_size) in
    Ok (mk (AVRaw values), offset + prop_size).

Definition float_field (n : string) (v : Z) : property := FloatProperty (lit n) 0 4 v.

Definition StructProperty_from_bytes (fuel : nat) (name : pystr) (prop_size prop_tag : Z)
    (data : bytes) (offset : Z) : result (property * Z) :=
  '(type, offset) <- _read_string data offset ;;
  let '(guid, offset) := _read_guid data offset in
  offset <- skip_null data offset ;;
  let mk fs := StructProperty name prop_tag prop_size type guid fs in
  if str_eqb type (lit "Quat") then
    _ <- assert_ (prop_size =? 16) ;;
    x <- unpack_f32 data offset ;; y <- unpack_f32 data (offset + 4) ;;
    z <- unpack_f32 data (offset + 8) ;; w <- unpack_f32 data (offset + 12) ;;
    Ok (mk [float_field "X" x; float_field "Y" y; float_field "Z" z; float_field "W" w],
        offset + 16)
  else if str_eqb type (lit "Vector") then
    _ <- assert_ (prop_size =? 12) ;;
    x <- unpack_f32 data offset ;; y <- unpack_f32 data (offset + 4) ;;
    z <- unpack_f32 data (offset + 8) ;;
    Ok (mk [float_field "X" x; float_field "Y" y; float_field "Z" z], offset + 12)
  else if str_eqb type (lit "DateTime") then
    _ <- assert_ (prop_size =? 8) ;;
    ticks <- unpack_i64 data offset ;;
    Ok (mk [Int64Property (lit "Ticks") 0 8 ticks], offset + 8)
  else if str_eqb type (lit "Guid") then
    _ <- assert_ (prop_size =? 16) ;;
    let raw := py_slice data offset (offset + 16) in
    (* [raw[7:8][0]] and the like raise IndexError on a short slice *)
    if (length raw <? 8)%nat then Err IndexError
    else Ok (mk [StrProperty (lit "Value") 0 (36 + 4 + 1) (render_guid raw)], offset + 16)
  else
    '(fields, offset) <- read_until fuel data offset (offset + prop_size) ;;
    Ok (mk fields, offset).

End Recursive.

Definition BoolProperty_from_bytes name prop_size prop_tag data offset :=
  _ <- assert_ (prop_size =? 0) ;;
  v <- py_index data offset ;;
  offset <- skip_null data (offset + 1) ;;
  Ok (BoolProperty name prop_tag prop_size (negb (v =? 0)), offset).

Definition ByteProperty_from_bytes name prop_size prop_tag data offset :=
  '(guid, offset) <- _read_string data offset ;;
  offset <- skip_null data offset ;;
  if prop_size =? 1 then
    v <- py_index data offset ;;
    Ok (ByteProperty name prop_tag prop_size guid (BVInt v), offset + 1)
  else
    '(v, offset) <- _read_string data offset ;;
    Ok (ByteProperty name prop_tag prop_size guid (BVStr v), offset).

Definition DoubleProperty_from_bytes name prop_size prop_tag data offset :=
  _ <- assert_ (prop_size =? 8) ;;
  v <- unpack_f64 data offset ;;
  Ok (DoubleProperty name prop_tag prop_size v, offset + 8).

Definition FloatProperty_from_bytes name prop_size prop_tag data offset :=
  _ <- assert_ (prop_size =? 4) ;;
  v <- unpack_f32 data offset ;;
  Ok (FloatProperty name prop_tag prop_size v, offset + 4).

Definition Int64Property_from_bytes name prop_size prop_tag data offset :=
  _ <- assert_ (prop_size =? 8) ;;
  v <- unpack_i64 data offset ;;
  Ok (Int64Property name prop_tag prop_size v, offset + 8).

Definition IntProperty_from_bytes name prop_size prop_tag data offset :=
  _ <- assert_ (prop_size =? 4) ;;
  '(v, _) <- _read_i32 data offset ;;
  let offset := offset + 4 in
  int_tag <- py_index data offset ;;
  Ok (IntProperty name prop_tag prop_size v (Z.land int_tag 255), offset + 1).

Definition MapProperty_from_bytes name prop_size prop_tag data offset :=
  '(key_type, offset) <- _read_string data offset ;;
  '(value_type, offset) <- _read_string data offset ;;
  offset <- skip_null data offset ;;
  '(map_size, offset) <- _read_u32 data offset ;;
  let raw_bytes := py_slice data offset (offset + prop_size - 5) in
  let offset := offset + (prop_size - 5) in
  offset <- skip_null data offset ;;
  Ok (MapProperty name prop_tag prop_size key_type value_type map_size raw_bytes, offset).

(** NameProperty and ObjectProperty check [len(value) + 4 + 1 == prop_size];
    StrProperty checks [prop_size == len(value) + 4 + (1 if value else 0)]. *)
Definition NameProperty_from_bytes name prop_size prop_tag data offset :=
  offset <- skip_null data offset ;;
  '(value, offset) <- _read_string data offset ;;
  _ <- assert_ (py_len value + 4 + 1 =? prop_size) ;;
  Ok (NameProperty name prop_tag prop_size value, offset).

Definition ObjectProperty_from_bytes name prop_size prop_tag data offset :=
  offset <- skip_null data offset ;;
  '(value, offset) <- _read_string data offset ;;
  _ <- assert_ (py_len value + 4 + 1 =? prop_size) ;;
  Ok (ObjectProperty name prop_tag prop_size value, offset).

Definition StrProperty_from_bytes name prop_size prop_tag data offset :=
  offset <- skip_null data offset ;;
  '(value, offset) <- _read_string data offset ;;
  _ <- assert_ (prop_size =? py_len value + 4 + (match value with [] => 0 | _ => 1 end)) ;;
  Ok (StrProperty name prop_tag prop_size value, offset).

Definition TextProperty_from_bytes name prop_size prop_tag data offset :=
  let value := py_slice data offset (offset + prop_size) in
  Ok (TextProperty name prop_tag prop_size value, offset + prop_size + 1).

Definition UInt64Property_from_bytes name prop_size prop_tag data offset :=
  _ <- assert_ (prop_size =? 8) ;;
  v <- unpack_u64 data offset ;;
  Ok (UInt64Property name prop_tag prop_size v, offset + 8).

(** [PropertyFactory.create_property]: dispatch on the class name. *)
Definition create_property rp (fuel : nat) (name prop_type : pystr) (prop_size prop_tag : Z)
    (data : bytes) (offset : Z) : result (property * Z) :=
  let is (s : string) := str_eqb prop_type (lit s) in
  if is "ArrayProperty"%string then ArrayProperty_from_bytes rp fuel name prop_size prop_tag data offset
  else if is "BoolProperty"%string then BoolProperty_from_bytes name prop_size prop_tag data offset
  else if is "ByteProperty"%string then ByteProperty_from_bytes name prop_size prop_tag data offset
  else if is "DoubleProperty"%string then DoubleProperty_from_bytes name prop_size prop_tag data offset
  else if is "FloatProperty"%string then FloatProperty_from_bytes name prop_size prop_tag data offset
  else if is "Int64Property"%string then Int64Property_from_bytes name prop_size prop_tag data offset
  else if is "IntProperty"%string then IntProperty_from_bytes name prop_size prop_tag data offset
  else if is "MapProperty"%string then MapProperty_from_bytes name prop_size prop_tag data offset
  else if is "NameProperty"%string then NameProperty_from_bytes name prop_size prop_tag data offset
  else if is "ObjectProperty"%string then ObjectProperty_from_bytes name prop_size prop_tag data offset
  else if is "StrProperty"%string then StrProperty_from_bytes name prop_size prop_tag data offset
  else if is "StructProperty"%string then StructProperty_from_bytes rp fuel name prop_size prop_tag data offset
  else if is "TextProperty"%string then TextProperty_from_bytes name prop_size prop_tag data offset
  else if is "UInt64Property"%string then UInt64Property_from_bytes name prop_size prop_tag data offset
  else Err ValueError.

(** [_read_property]; [fuel] bounds the recursion depth and the loops. *)
Fixpoint _read_property (fuel : nat) (data : bytes) (offset : Z)
  : result (option property * Z) :=
  match fuel with
  | O => Err RecursionError
  | S f =>
    '(name, offset) <- _read_string data offset ;;
    if str_eqb name (lit "None") || str_eqb name [] then Ok (None, offset)
    else
      '(prop_type, offset) <- _read_string data offset ;;
      '(size, offset) <- _read_u32 data offset ;;
      '(tag, offset) <- _read_u32 data offset ;;
      '(p, offset) <- create_property (_read_property f) f name prop_type size tag data offset ;;
      Ok (Some p, offset)
  end.

(** [_read_properties]: a [None] result is skipped with [continue]. *)
Fixpoint _read_properties (fuel : nat) (data : bytes) (offset end_offset : Z)
  : result (list property * Z) :=
  match fuel with
  | O => Err RecursionError
  | S f =>
    if offset <? end_offset then
      '(p, offset) <- _read_property f data offset ;;
      match p with
      | None => _read_properties f data offset end_offset
      | Some p => '(ps, offset) <- _read_properties f data offset end_offset ;; Ok (p :: ps, offset)
      end
    else Ok ([], offset)
  end.

(** ** Writer *)

(** [struct.pack('<q' | '<Q', v)] *)
Definition pack_q (v : Z) : result bytes :=
  if (- 2 ^ 63 <=? v) && (v <? 2 ^ 63) then Ok (le_bytes 8 (v mod 2 ^ 64)) else Err StructError.
Definition pack_Q (v : Z) : result bytes :=
  if (0 <=? v) && (v <? 2 ^ 64) then Ok (le_bytes 8 v) else Err StructError.

Fixpoint write_each {A} (w : A -> result bytes) (l : list A) : result bytes :=
  match l with
  | [] => Ok []
  | x :: r => b <- w x ;; rest <- write_each w r ;; Ok (b ++ rest)
  end.

(** [str(v)] for an [int] *)
Fixpoint digits (fuel : nat) (v : Z) : pystr :=
  match fuel with
  | O => []
  | S f => (if v <? 10 then [] else digits f (v / 10)) ++ [48 + v mod 10]
  end.
Definition py_str_int (v : Z) : pystr :=
  if v <? 0 then 45 :: digits (Z.to_nat (Z.log2 (- v) + 2)) (- v)
  else digits (Z.to_nat (Z.log2 v + 2)) v.

Definition is_float_prop (p : property) : bool :=
  match p with FloatProperty _ _ _ _ => true | _ => false end.
Definition float_bits (p : property) : Z :=
  match p with FloatProperty _ _ _ v => v | _ => 0 end.

(** [_write_property] together with each class's [to_bytes].  Array values
    whose shape differs from the one the reader builds for [inner_type] are
    refused with [NotImplementedError]; so is a [ByteProperty] of size 1
    whose value is a [str] ([int(str)] is not modelled). *)
Fixpoint _write_property (p : property) : result bytes :=
  n <- _write_string (prop_name p) ;;
  t <- _write_string (class_name p) ;;
  let head := n ++ t ++ _write_u32 (prop_size p) ++ _write_u32 (prop_tag p) in
  body <-
    match p with
    | ArrayProperty _ _ _ inner array_size values =>
      it <- _write_string inner ;;
      a <- _write_i32 array_size ;;
      let pre := it ++ [0] ++ a in
      if str_eqb inner (lit "ByteProperty") then
        match values with
        | AVRaw b => Ok (pre ++ b)
        | AVInts l => Ok (pre ++ map (fun v => Z.land v 255) l)
        | _ => Err NotImplementedError
        end
      else if str_eqb inner (lit "StrProperty") || str_eqb inner (lit "NameProperty") then
        match values with
        | AVStrs l => b <- write_each _write_string l ;; Ok (pre ++ b)
        | _ => Err NotImplementedError
        end
      else if str_eqb inner (lit "IntProperty") then
        match values with
        | AVInts l => b <- write_each _write_i32 l ;; Ok (pre ++ b)
        | _ => Err NotImplementedError
        end
      else if str_eqb inner (lit "StructProperty") then
        match values with
        | AVProps l =>
          b <- (fix go (l : list property) : result bytes :=
                  match l with
                  | [] => Ok []
                  | q :: r => bq <- _write_property q ;; br <- go r ;; Ok (bq ++ br)
                  end) l ;;
          none <- _write_string (lit "None") ;;
          Ok (pre ++ b ++ none)
        | _ => Err NotImplementedError
        end
      else if str_eqb inner (lit "FloatProperty") then
        match values with
        | AVFloats l => Ok (pre ++ flat_map (le_bytes 4) l)
        | _ => Err NotImplementedError
        end
      else
        match values with
        | AVRaw b => Ok (pre ++ b)
        | _ => Err NotImplementedError
        end
    | BoolProperty _ _ _ v => Ok [if v then 1 else 0; 0]
    | ByteProperty _ _ size _ v =>
      if size =? 1 then
        match v with
        | BVInt i => Ok [0; Z.land i 255]
        | BVStr _ => Err NotImplementedError
        end
      else
        s <- _write_string (match v with BVStr s => s | BVInt i => py_str_int i end) ;;
        Ok (0 :: s)
    | DoubleProperty _ _ _ v => Ok (le_bytes 8 v)
    | FloatProperty _ _ _ v => Ok (le_bytes 4 v)
    | Int64Property _ _ _ v => pack_q v
    | IntProperty _ _ _ v int_tag => b <- _write_i32 v ;; Ok (b ++ [int_tag])
    | MapProperty _ _ _ key_type value_type map_size raw_bytes =>
      k <- _write_string key_type ;;
      v <- _write_string value_type ;;
      Ok (k ++ v ++ [0] ++ _write_u32 map_size ++ raw_bytes ++ [0])
    | NameProperty _ _ _ v | ObjectProperty _ _ _ v | StrProperty _ _ _ v =>
      s <- _write_string v ;; Ok (0 :: s)
    | StructProperty _ _ _ type guid fields =>
      ty <- _write_string type ;;
      let pre := ty ++ _write_guid guid ++ [0] in
      if str_eqb type (lit "Quat") then
        _ <- assert_ ((length fields =? 4)%nat) ;;
        _ <- assert_ (forallb is_float_prop fields) ;;
        Ok (pre ++ flat_map (fun f => le_bytes 4 (float_bits f)) fields)
      else if str_eqb type (lit "Vector") then
        _ <- assert_ ((length fields =? 3)%nat) ;;
        _ <- assert_ (forallb is_float_prop fields) ;;
        Ok (pre ++ flat_map (fun f => le_bytes 4 (float_bits f)) fields)
      else
        b <- (fix go (l : list property) : result bytes :=
                match l with
                | [] => Ok []
                | q :: r => bq <- _write_property q ;; br <- go r ;; Ok (bq ++ br)
                end) fields ;;
        none <- (match fields with
                 | [] => Ok []
                 | _ => _write_string (lit "None")
                 end) ;;
        Ok (pre ++ b ++ none)
    | TextProperty _ _ _ v => Ok (v ++ [0])
    | UInt64Property _ _ _ v => pack_Q v
    end ;;
  Ok (head ++ body).

(** ** GVAS header *)

Record engine_version := mkEngineVersion {
  major : Z; minor : Z; patch : Z; changelist : Z; branch : pystr }.

(** the [file_version_ue4]/[file_version_ue5] pair or [package_file_version] *)
Inductive file_versions :=
| FVDual (file_version_ue4 file_version_ue5 : Z)
| FVSingle (package_file_version : Z).

(** The header dict built by [_read_gvas_header]; its constant ["magic"]
    entry is left out. *)
Record header := mkHeader {
  save_game_version : Z;
  file_version : file_versions;
  engine : engine_version;
  custom_versions_format : Z;
  custom_versions : list (pystr * Z);
  save_game_class_name : pystr }.

Definition MAGIC : bytes := lit "GVAS".

(** the [allowed] set of [_plausible_class_name] *)
Definition allowed_chars : pystr :=
  lit "abcdefghijklmnopqrstuvwxyzABCDEFGHIJKLMNOPQRSTUVWXYZ0123456789_./\:-$[]()<>@!%+,' "
  ++ [34].

(** [_plausible_class_name]: [ok / max(1, len(s)) < 0.75] is decided exactly,
    as the float quotient of two integers at most 2048 cannot round across
    0.75; the marker test returns [True] on both branches. *)
Definition _plausible_class_name (s : pystr) : bool :=
  let n := py_len s in
  if negb ((1 <=? n) && (n <=? 2048)) then false
  else
    let ok := py_len (filter (fun ch => existsb (Z.eqb ch) allowed_chars) s) in
    if 4 * ok <? 3 * Z.max 1 n then false
    else true.

Definition read_custom_version (data : bytes) (offset : Z) : result ((pystr * Z) * Z) :=
  let '(guid, offset) := _read_guid data offset in
  '(version, offset) <- _read_i32 data offset ;;
  Ok ((guid, version), offset).

(** The custom-versions record and the class name as [_read_gvas_header]
    reads them: format, count, entries, class name. *)
Definition read_custom_versions_pkg (data : bytes) (offset : Z)
  : result (Z * list (pystr * Z) * pystr * Z) :=
  '(fmt, offset) <- _read_i32 data offset ;;
  '(cnt, offset) <- _read_i32 data offset ;;
  if negb ((0 <=? cnt) && (cnt <=? 10000) && (0 <=? fmt) && (fmt <=? 10)) then Err ValueError
  else
    '(cvs, offset) <- read_n (Z.to_nat cnt) (read_custom_version data) offset ;;
    '(cls, offset) <- _read_string data offset ;;
    _ <- assert_ (_plausible_class_name cls) ;;
    Ok (fmt, cvs, cls, offset).

Definition _read_gvas_header (data : bytes) (offset : Z) : result (header * Z) :=
  if negb (str_eqb (py_slice data offset (offset + 4)) MAGIC) then Err ValueError
  else
    let offset := offset + 4 in
    '(sgv, offset) <- _read_i32 data offset ;;
    '(ue4, off_try) <- _read_i32 data offset ;;
    '(ue5, off_try) <- _read_i32 data off_try ;;
    '(maj_try, _) <- _read_u16 data off_try ;;
    '(min_try, _) <- _read_u16 data (off_try + 2) ;;
    let dual := (0 <=? maj_try) && (maj_try <=? 50) && (0 <=? min_try) && (min_try <=? 50) in
    '(fv, offset) <-
      (if dual then Ok (FVDual ue4 ue5, off_try)
       else '(single, offset) <- _read_i32 data offset ;; Ok (FVSingle single, offset)) ;;
    '(maj, offset) <- _read_u16 data offset ;;
    '(mnr, offset) <- _read_u16 data offset ;;
    '(pat, offset) <- _read_u16 data offset ;;
    '(cl, offset) <- _read_u32 data offset ;;
    '(br, offset) <- _read_string data offset ;;
    '(fmt, cvs, cls, offset) <- read_custom_versions_pkg data offset ;;
    Ok (mkHeader sgv fv (mkEngineVersion maj mnr pat cl br) fmt cvs cls, offset).

Definition _write_gvas_header (h : header) : result bytes :=
  sgv <- _write_i32 (save_game_version h) ;;
  fv <- (match file_version h with
         | FVDual a b => x <- _write_i32 a ;; y <- _write_i32 b ;; Ok (x ++ y)
         | FVSingle a => _write_i32 a
         end) ;;
  let ev := engine h in
  br <- _write_string (branch ev) ;;
  fmt <- _write_i32 (custom_versions_format h) ;;
  cnt <- _write_i32 (py_len (custom_versions h)) ;;
  cvs <- write_each (fun e => v <- _write_i32 (snd e) ;; Ok (_write_guid (fst e) ++ v))
           (custom_versions h) ;;
  cls <- _write_string (save_game_class_name h) ;;
  Ok (MAGIC ++ sgv ++ fv ++ _write_u16 (major ev) ++ _write_u16 (minor ev)
      ++ _write_u16 (patch ev) ++ _write_u32 (changelist ev) ++ br
      ++ fmt ++ cnt ++ cvs ++ cls).

(** ** Compression envelope and the file facade *)

(** [method.lower()] on ASCII letters; no other code point lowers to a
    letter of the method names. *)
Definition ascii_lower (s : pystr) : pystr :=
  map (fun c => if in_rng 65 90 c then c + 32 else c) s.

Definition is_prefix (p l : bytes) : bool := str_eqb (firstn (length p) l) p.

Section Codecs.
(** The third-party decompressors: [inl] is the output, [inr] the text of the
    exception they raise.  [lz4f] and [zstd] are [None] when the optional
    module failed to import. *)
Variable zlib_decompress : bytes -> bytes + pystr.
Variable zlib_decompress_raw : bytes -> bytes + pystr.   (* wbits = -15 *)
Variable gzip_decompress : bytes -> bytes + pystr.
Variable lz4f : option (bytes -> bytes + pystr).
Variable zstd : option (bytes -> bytes + pystr).

Definition opt_of (r : bytes + pystr) : option bytes :=
  match r with inl b => Some b | inr _ => None end.

Definition _try_zlib (data : bytes) : option bytes := opt_of (zlib_decompress data).
Definition _try_deflate_raw (data : bytes) : option bytes := opt_of (zlib_decompress_raw data).
Definition _try_gzip (data : bytes) : option bytes :=
  match (if is_prefix [31; 139] data then opt_of (gzip_decompress data) else None) with
  | Some out => Some out
  | None => opt_of (gzip_decompress data)
  end.
Definition _try_lz4 (data : bytes) : option bytes :=
  match lz4f with None => None | Some f => opt_of (f data) end.
Definition _try_zstd (data : bytes) : option bytes :=
  match zstd with None => None | Some f => opt_of (f data) end.

(** [raise DecompressionError(f"{name} failed: {e}")] on a codec failure *)
Definition explicit_codec (name : string) (r : bytes + pystr) : result bytes :=
  match r with
  | inl out => Ok out
  | inr e => Err (DecompressionError (lit name ++ lit " failed: " ++ e))
  end.

Definition first_some (l : list (unit -> option bytes)) : option bytes :=
  fold_right (fun t acc => match t tt with Some o => Some o | None => acc end) None l.

Definition decompress_payload (raw_bytes : bytes) (method : pystr) : result bytes :=
  let m := ascii_lower method in
  if str_eqb m (lit "none") then Ok raw_bytes
  else if str_eqb m (lit "zlib") then explicit_codec "zlib" (zlib_decompress raw_bytes)
  else if str_eqb m (lit "deflate") then explicit_codec "deflate" (zlib_decompress_raw raw_bytes)
  else if str_eqb m (lit "gzip") then explicit_codec "gzip" (gzip_decompress raw_bytes)
  else if str_eqb m (lit "lz4") then
    match lz4f with
    | None => Err (DecompressionError (lit "lz4 not available. Install 'lz4' package."))
    | Some f => explicit_codec "lz4" (f raw_bytes)
    end
  else if str_eqb m (lit "zstd") then
    match zstd with
    | None => Err (DecompressionError (lit "zstd not available. Install 'zstandard' package."))
    | Some f => explicit_codec "zstd" (f raw_bytes)
    end
  else
    let auto :=
      [ (fun _ => if is_prefix [31; 139] raw_bytes then _try_gzip raw_bytes else None);
        (fun _ => if is_prefix [40; 181; 47; 253] raw_bytes then _try_zstd raw_bytes else None);
        (fun _ => if is_prefix [4; 34; 77; 24] raw_bytes then _try_lz4 raw_bytes else None);
        (fun _ => _try_zlib raw_bytes);
        (fun _ => _try_deflate_raw raw_bytes);
        (fun _ => _try_gzip raw_bytes);
        (fun _ => _try_lz4 raw_bytes);
        (fun _ => _try_zstd raw_bytes) ] in
    match first_some auto with
    | Some out => Ok out
    | None => Err (DecompressionError
        (lit "Could not decompress payload. Try --compression none|zlib|deflate|gzip|lz4|zstd."))
    end.

(** [data.find(MAGIC, 0, 256)] *)
Definition find_magic (data : bytes) : option Z :=
  let fix go (k : nat) (idx : Z) :=
    match k with
    | O => None
    | S k' =>
      if (idx + 4 <=? Z.min 256 (py_len data)) && str_eqb (py_slice data idx (idx + 4)) MAGIC
      then Some idx else go k' (idx + 1)
    end in
  go 253%nat 0.

(** the test [data.find] makes at offset [j] with end 256: [GVAS] lies in
    [data[j:j+4]] and within the first 256 bytes *)
Definition magic_at (data : bytes) (j : Z) : bool :=
  (j + 4 <=? Z.min 256 (py_len data)) && str_eqb (py_slice data j (j + 4)) MAGIC.

Record SaveFile := mkSaveFile { header_of : header; properties : list property }.

(** [read_savefile] from the bytes [path.read_bytes()] returned.  The fuel
    bounding the property loop and the recursion is the buffer length plus
    one; every iteration and every nested call first consumes the four bytes
    of a name length. *)
Definition read_savefile (raw : bytes) (compression : pystr) : result SaveFile :=
  let data :=
    if is_prefix MAGIC raw then raw
    else match decompress_payload raw compression with
         | Ok candidate => if is_prefix MAGIC candidate then candidate else raw
         | Err _ => raw
         end in
  offset <- (if is_prefix MAGIC data then Ok 0
             else match find_magic data with Some idx => Ok idx | None => Err ValueError end) ;;
  '(h, offset) <- _read_gvas_header data offset ;;
  '(props, _) <- _read_properties (S (length data)) data offset (py_len data) ;;
  Ok (mkSaveFile h props).

End Codecs.

Definition _write_properties (props : list property) : result bytes :=
  b <- write_each _write_property props ;;
  none <- _write_string (lit "None") ;;
  Ok (b ++ none).

(** [write_savefile]: the bytes handed to [Path(path).write_bytes]. *)
Definition write_savefile (save : SaveFile) : result bytes :=
  h <- _write_gvas_header (header_of save) ;;
  ps <- _write_properties (properties save) ;;
  Ok (h ++ ps).

(** ** The custom-versions variants of the standalone script [uesave.py] *)

Module Script.

(** an entry of [custom_versions]: GUID, version, optional friendly name *)
Definition cv_entry := (pystr * Z * option pystr)%type.

(** What [parse_gvas_header] stores: [custom_versions_format] (variants A and
    B only), [custom_versions], [save_game_class_name], and the offset. *)
Record cv_outcome := mkOutcome {
  cv_format : option Z;
  cv_versions : option (list cv_entry);
  cv_class_name : option pystr;
  cv_offset : Z }.

Definition entry_plain (data : bytes) (o : Z) : result (cv_entry * Z) :=
  let '(guid, o) := _read_guid data o in
  '(ver, o) <- _read_i32 data o ;;
  Ok ((guid, ver, None), o).

Definition entry_friendly (data : bytes) (o : Z) : result (cv_entry * Z) :=
  let '(guid, o) := _read_guid data o in
  '(ver, o) <- _read_i32 data o ;;
  '(fname, o) <- _read_string data o ;;
  Ok ((guid, ver, Some fname), o).

(** [parse_gvas_header] from [base = offset] on: attempts A to D, each
    inside [try]/[except Exception]; [Ok (Some r)] is a committed attempt,
    [Ok None] an implausible class name, [Err _] an exception. *)
Definition attempt_a (data : bytes) (base : Z) : result (option cv_outcome) :=
  '(fmt, off_cv) <- _read_i32 data base ;;
  '(cnt, off_cv) <- _read_i32 data off_cv ;;
  if negb ((0 <=? cnt) && (cnt <=? 10000) && (0 <=? fmt) && (fmt <=? 10)) then Err ValueError
  else
    '(customs_a, off_cv) <- read_n (Z.to_nat cnt) (entry_plain data) off_cv ;;
    '(cls, off_cv) <- _read_string data off_cv ;;
    Ok (if _plausible_class_name cls
        then Some (mkOutcome (Some fmt) (Some customs_a) (Some cls) off_cv) else None).

Definition attempt_b (data : bytes) (base : Z) : result (option cv_outcome) :=
  '(fmt, off_cv) <- _read_i32 data base ;;
  '(cnt, off_cv) <- _read_i32 data off_cv ;;
  if negb ((0 <=? cnt) && (cnt <=? 10000) && (0 <=? fmt) && (fmt <=? 10)) then Err ValueError
  else
    '(customs_b, off_cv) <- read_n (Z.to_nat cnt) (entry_friendly data) off_cv ;;
    '(cls, off_cv) <- _read_string data off_cv ;;
    Ok (if _plausible_class_name cls
        then Some (mkOutcome (Some fmt) (Some customs_b) (Some cls) off_cv) else None).

Definition attempt_c (data : bytes) (base : Z) : result (option cv_outcome) :=
  '(cnt, off_cv) <- _read_i32 data base ;;
  if negb ((0 <=? cnt) && (cnt <=? 10000)) then Err ValueError
  else
    '(customs_c, off_cv) <- read_n (Z.to_nat cnt) (entry_plain data) off_cv ;;
    '(cls, off_cv) <- _read_string data off_cv ;;
    Ok (if _plausible_class_name cls
        then Some (mkOutcome None (Some customs_c) (Some cls) off_cv) else None).

Definition attempt_d (data : bytes) (base : Z) : result (option cv_outcome) :=
  '(cnt, off_cv) <- _read_i32 data base ;;
  if negb ((0 <=? cnt) && (cnt <=? 10000)) then Err ValueError
  else
    '(customs_d, off_cv) <- read_n (Z.to_nat cnt) (entry_friendly data) off_cv ;;
    '(cls, off_cv) <- _read_string data off_cv ;;
    Ok (if _plausible_class_name cls
        then Some (mkOutcome None (Some customs_d) (Some cls) off_cv) else None).

(** The attempts in sequence, then the class-name-only fallback, which is not
    guarded by [try]; when it is implausible too, nothing is stored and the
    offset stays at [base]. *)
Definition parse_custom_versions (data : bytes) (base : Z) : result cv_outcome :=
  match attempt_a data base with
  | Ok (Some r) => Ok r
  | _ =>
  match attempt_b data base with
  | Ok (Some r) => Ok r
  | _ =>
  match attempt_c data base with
  | Ok (Some r) => Ok r
  | _ =>
  match attempt_d data base with
  | Ok (Some r) => Ok r
  | _ =>
    '(cls, off_cv) <- _read_string data base ;;
    if _plausible_class_name cls then Ok (mkOutcome None None (Some cls) off_cv)
    else Ok (mkOutcome None None None base)
  end end end end.

(** whether an attempt committed *)
Definition commit (m : result (option cv_outcome)) : option cv_outcome :=
  match m with Ok (Some r) => Some r | _ => None end.

(** The variant table of the spec (section 4.3), read from its words: a
    variant has or lacks the leading [fmt] and the per-entry friendly name;
    E is the class name alone.  An attempt fails on a read error, a failed
    [count]/[fmt] guard or an implausible class name. *)
Record layout := { has_fmt : bool; has_friendly : bool }.

Definition variant_A := {| has_fmt := true; has_friendly := false |}.
Definition variant_B := {| has_fmt := true; has_friendly := true |}.
Definition variant_C := {| has_fmt := false; has_friendly := false |}.
Definition variant_D := {| has_fmt := false; has_friendly := true |}.

Definition spec_attempt (L : layout) (data : bytes) (base : Z) : option cv_outcome :=
  let parsed :=
    '(fmt, o) <- (if has_fmt L then '(f, o) <- _read_i32 data base ;; Ok (Some f, o)
                  else Ok (None, base)) ;;
    '(cnt, o) <- _read_i32 data o ;;
    let fmt_ok := match fmt with Some f => (0 <=? f) && (f <=? 10) | None => true end in
    if negb ((0 <=? cnt) && (cnt <=? 10000) && fmt_ok) then Err ValueError
    else
      '(cvs, o) <- read_n (Z.to_nat cnt)
                     ((if has_friendly L then entry_friendly else entry_plain) data) o ;;
      '(cls, o) <- _read_string data o ;;
      Ok (fmt, cvs, cls, o) in
  match parsed with
  | Ok (fmt, cvs, cls, o) =>
    if _plausible_class_name cls then Some (mkOutcome fmt (Some cvs) (Some cls) o) else None
  | Err _ => None
  end.

Definition spec_attempt_E (data : bytes) (base : Z) : option cv_outcome :=
  match _read_string data base with
  | Ok (cls, o) => if _plausible_class_name cls then Some (mkOutcome None None (Some cls) o) else None
  | Err _ => None
  end.

(** Attempt the variants in the order A, B, C, D, E and commit to the first
    one that succeeds. *)
Definition spec_custom_versions (data : bytes) (base : Z) : option cv_outcome :=
  fold_right (fun att acc => match att data base with Some r => Some r | None => acc end)
    None
    [spec_attempt variant_A; spec_attempt variant_B; spec_attempt variant_C;
     spec_attempt variant_D; spec_attempt_E].

End Script.

(** The package reader's custom-versions result in the same shape. *)
Definition pkg_custom_versions (data : bytes) (base : Z) : option Script.cv_outcome :=
  match read_custom_versions_pkg data base with
  | Ok (fmt, cvs, cls, o) =>
    Some (Script.mkOutcome (Some fmt) (Some (map (fun e => (fst e, snd e, None)) cvs))
            (Some cls) o)
  | Err _ => None
  end.

(** ** Predicates used by the statements *)

(** Every node of a decoded tree, nested struct fields and array-of-struct
    elements included, has a non-empty name. *)
Fixpoint names_ok (p : property) : bool :=
  negb (str_eqb (prop_name p) []) &&
  match p with
  | StructProperty _ _ _ _ _ fs => forallb names_ok fs
  | ArrayProperty _ _ _ _ _ (AVProps l) => forallb names_ok l
  | _ => true
  end.

Definition is_lower_hex (c : Z) : bool := in_rng 48 57 c || in_rng 97 102 c.

(** [sep.join(parts)] *)
Fixpoint join_on (sep : Z) (ps : list pystr) : pystr :=
  match ps with
  | [] => []
  | [p] => p
  | p :: r => p ++ sep :: join_on sep r
  end.

(** A canonical GUID string: five dash-separated groups of lowercase hex
    digits encoding 4, 2, 2, 2 and 6 bytes, the form [_read_guid] renders. *)
Definition canonical_guid (g : pystr) : bool :=
  match split_on dash g with
  | [p1; p2; p3; p4; p5] =>
    (length p1 =? 8)%nat && (length p2 =? 4)%nat && (length p3 =? 4)%nat
    && (length p4 =? 4)%nat && (length p5 =? 12)%nat
    && forallb is_lower_hex (p1 ++ p2 ++ p3 ++ p4 ++ p5)
  | _ => false
  end.

(** A list of byte values, as a Python [bytes] object holds. *)
Definition byte_list (l : bytes) : bool :=
  forallb (fun b => (0 <=? b) && (b <? 256)) l.

(** Text that [_write_string] stores as UTF-8 and reads back unchanged:
    code points 1 to 127. *)
Definition ascii_text (s : pystr) : bool :=
  forallb (fun c => (1 <=? c) && (c <? 128)) s.

(** Text of non-NUL Unicode scalar values (no surrogates), as a UTF-16
    FString carries it. *)
Definition scalar_text (s : pystr) : bool :=
  forallb (fun c => (1 <=? c) && (c <? 1114112) && negb (is_surrogate c)) s.

(** [b] sits at offset [o] of the buffer [d]. *)
Definition reads_at (d : bytes) (o : Z) (b : bytes) : Prop :=
  exists pre rest, d = pre ++ b ++ rest /\ o = py_len pre.

Definition u32_ok (v : Z) : bool := (0 <=? v) && (v <? 2 ^ 32).
Definition i32_ok (v : Z) : bool := (- 2 ^ 31 <=? v) && (v <? 2 ^ 31).

(** A string [_write_string] and [_read_string] carry unchanged. *)
Definition fstring_ok (s : pystr) : bool := ascii_text s && (py_len s <? 2 ^ 31 - 1).

(** A property name that survives the round trip: not the "None" sentinel
    and not empty, which [_read_property] would take for the end. *)
Definition name_ok (n : pystr) : bool :=
  fstring_ok n && negb (str_eqb n []) && negb (str_eqb n (lit "None")).

(** The scalar records whose fields fit their encodings: a size field equal
    to what the reader checks or consumes, values in the range of their
    format, ASCII strings. *)
Definition scalar_record_ok (p : property) : bool :=
  name_ok (prop_name p) && u32_ok (prop_tag p) &&
  match p with
  | BoolProperty _ _ s _ => s =? 0
  | DoubleProperty _ _ s v => (s =? 8) && (0 <=? v) && (v <? 2 ^ 64)
  | FloatProperty _ _ s v => (s =? 4) && (0 <=? v) && (v <? 2 ^ 32)
  | Int64Property _ _ s v => (s =? 8) && (- 2 ^ 63 <=? v) && (v <? 2 ^ 63)
  | UInt64Property _ _ s v => (s =? 8) && (0 <=? v) && (v <? 2 ^ 64)
  | IntProperty _ _ s v t => (s =? 4) && i32_ok v && (0 <=? t) && (t <? 256)
  | StrProperty _ _ s v =>
    fstring_ok v && (s =? py_len v + 4 + match v with [] => 0 | _ => 1 end)
  | NameProperty _ _ s v | ObjectProperty _ _ s v => fstring_ok v && (s =? py_len v + 5)
  | TextProperty _ _ s v => u32_ok s && (s =? py_len v)
  | MapProperty _ _ s k vt ms raw =>
    fstring_ok k && fstring_ok vt && u32_ok ms && u32_ok s && (s =? py_len raw + 5)
  | _ => false
  end.

(** the bytes [_write_string("None")] appends: the property-list terminator *)
Definition none_bytes : bytes := [5; 0; 0; 0] ++ lit "None" ++ [0].

(** A header whose fields fit the encodings [_write_gvas_header] uses and
    that [_read_gvas_header] accepts: every [i32]/[u16]/[u32] field in range,
    the version layout recognisable by the reader's peek (a dual layout has
    engine major and minor at most 50, a single one must not have engine
    patch and the low half of the changelist both at most 50), a format in
    [0, 10], at most 10000 custom versions with canonical GUID strings, and
    ASCII strings with a plausible class name. *)
Definition header_ok (h : header) : bool :=
  let ev := engine h in
  i32_ok (save_game_version h) &&
  match file_version h with
  | FVDual a b => i32_ok a && i32_ok b && (major ev <=? 50) && (minor ev <=? 50)
  | FVSingle a => i32_ok a && negb ((patch ev <=? 50) && (changelist ev mod 2 ^ 16 <=? 50))
  end &&
  (0 <=? major ev) && (major ev <? 2 ^ 16) && (0 <=? minor ev) && (minor ev <? 2 ^ 16) &&
  (0 <=? patch ev) && (patch ev <? 2 ^ 16) && u32_ok (changelist ev) &&
  fstring_ok (branch ev) &&
  (0 <=? custom_versions_format h) && (custom_versions_format h <=? 10) &&
  (py_len (custom_versions h) <=? 10000) &&
  forallb (fun e => canonical_guid (fst e) && i32_ok (snd e)) (custom_versions h) &&
  fstring_ok (save_game_class_name h) && _plausible_class_name (save_game_class_name h).

(** ** Sample inputs, written byte by byte *)

(** A dual-layout header (UE5) and a single-layout header (UE4, engine
    4.27.2, changelist 0). *)
Definition sample_header_dual : header :=
  mkHeader 2 (FVDual 522 1009) (mkEngineVersion 5 1 1 0 (lit "++UE5+Release-5.1"))
    3 [(lit "33221100-5544-7766-8899-aabbccddeeff", 7)] (lit "/Script/Game.MySave").
Definition sample_header_single : header :=
  mkHeader 2 (FVSingle 522) (mkEngineVersion 4 27 2 0 []) 0
    [(lit "00000000-0008-0000-4142-434445464748", 0)] (lit "/Script/Game.MySave").

(** a save file with the dual-layout header and two scalar records, and a
    decompressor that always fails *)
Definition sample_save : SaveFile :=
  mkSaveFile sample_header_dual
    [IntProperty (lit "Level") 0 4 7 0; BoolProperty (lit "Done") 0 0 true].
Definition fail_codec (_ : bytes) : bytes + pystr := inr (lit "invalid data").

(** the FString encoding of an ASCII string: length with the NUL, bytes, NUL *)
Definition fstr (s : string) : bytes :=
  match s with
  | EmptyString => [0; 0; 0; 0]
  | _ => le_bytes 4 (Z.of_nat (String.length s) + 1) ++ lit s ++ [0]
  end.

Definition u32le (v : Z) : bytes := le_bytes 4 v.

(** dual file versions (522, 0), engine 5.1.1 changelist 0 with an empty
    branch, custom versions format 3 with no entry, class "/Game/A.B_C" *)
Definition sample_header : bytes :=
  MAGIC ++ u32le 2 ++ u32le 522 ++ u32le 0 ++ le_bytes 2 5 ++ le_bytes 2 1
  ++ le_bytes 2 1 ++ u32le 0 ++ fstr "" ++ u32le 3 ++ u32le 0 ++ fstr "/Game/A.B_C".

Definition sample_header_value : header :=
  mkHeader 2 (FVDual 522 0) (mkEngineVersion 5 1 1 0 []) 3 [] (lit "/Game/A.B_C").

(** ByteProperty "B": size 1, tag 0, enum name "None", NUL, value 7 *)
Definition byte_record : bytes :=
  fstr "B" ++ fstr "ByteProperty" ++ u32le 1 ++ u32le 0 ++ fstr "None" ++ [0; 7].

Definition byte_save_file : bytes := sample_header ++ byte_record ++ fstr "None".

Definition byte_save : SaveFile :=
  mkSaveFile sample_header_value [ByteProperty (lit "B") 0 1 (lit "None") (BVInt 7)].

(** BoolProperty "X": size 0, tag 0, value 01, separator 00 *)
Definition bool_record : bytes :=
  fstr "X" ++ fstr "BoolProperty" ++ u32le 0 ++ u32le 0 ++ [1; 0].

(** NameProperty / ObjectProperty / StrProperty "N" with an empty value, size 4 *)
Definition empty_value_record (cls : string) : bytes :=
  fstr "N" ++ fstr cls ++ u32le 4 ++ u32le 0 ++ [0] ++ u32le 0.

(** ArrayProperty "A" of ByteProperty: size 7, count 3, payload 01 02 03,
    followed by the "None" sentinel *)
Definition byte_array_stream : bytes :=
  fstr "A" ++ fstr "ArrayProperty" ++ u32le 7 ++ u32le 0 ++ fstr "ByteProperty" ++ [0]
  ++ u32le 3 ++ [1; 2; 3] ++ fstr "None".

(** the custom-versions record of variant E: the class name alone *)
Definition variant_E_record : bytes := fstr "/Game/A.B_C".

Definition sample_guid_bytes : bytes :=
  [0; 17; 34; 51; 68; 85; 102; 119; 136; 153; 170; 187; 204; 221; 238; 255].

(** ** Claims *)

(** C1 (code defect).  A file holding one ByteProperty is read, written
    back, and the written bytes no longer decode: the writer omits the
    enum-name FString the reader consumed, so [read(write(s))] raises. *)
Theorem read_write_byte_property_breaks :
  forall zl zr gz lz zs,
    read_savefile zl zr gz lz zs byte_save_file (lit "auto") = Ok byte_save /\
    write_savefile byte_save =
      Ok (sample_header ++ fstr "B" ++ fstr "ByteProperty" ++ u32le 1 ++ u32le 0 ++ [0; 7]
          ++ fstr "None") /\
    read_savefile zl zr gz lz zs
      (sample_header ++ fstr "B" ++ fstr "ByteProperty" ++ u32le 1 ++ u32le 0 ++ [0; 7]
       ++ fstr "None") (lit "auto") = Err IndexError.
Proof. intros. vm_compute. repeat split. Qed.

(** C2 (code defect).  [_write_string "é"] emits the length 2 (the code
    point count plus one) and the UTF-8 bytes C3 A9 and a NUL, not the
    length -2 and the UTF-16LE payload E9 00 00 00; reading back "éé" loses
    a character. *)
Theorem write_string_non_ascii :
  _write_string [233] = Ok (u32le 2 ++ [195; 169; 0]) /\
  _read_string (u32le 2 ++ [195; 169; 0]) 0 = Ok ([233], 6) /\
  _write_string [233; 233] = Ok (u32le 3 ++ [195; 169; 195; 169; 0]) /\
  _read_string (u32le 3 ++ [195; 169; 195; 169; 0]) 0 = Ok ([233], 7).
Proof. vm_compute. repeat split. Qed.

(** C5 (code defect).  After a "None" name the top-level loop continues:
    a BoolProperty following the sentinel is decoded and returned. *)
Theorem properties_continue_after_none :
  _read_properties 40 (fstr "None" ++ bool_record) 0 (py_len (fstr "None" ++ bool_record))
  = Ok ([BoolProperty (lit "X") 0 0 true], 42).
Proof. vm_compute. reflexivity. Qed.

(** C6 (code defect).  A NameProperty or ObjectProperty with an empty value
    and size 4 aborts the decode; a StrProperty of the same shape is
    accepted. *)
Theorem empty_name_object_rejected :
  _read_property 10 (empty_value_record "NameProperty") 0 = Err AssertionError /\
  _read_property 10 (empty_value_record "ObjectProperty") 0 = Err AssertionError /\
  _read_property 10 (empty_value_record "StrProperty") 0
    = Ok (Some (StrProperty (lit "N") 0 4 []), 35).
Proof. vm_compute. repeat split. Qed.

(** C7, as the claim states it: the re-emitted BoolProperty record is not 15
    bytes long. *)
Lemma bool_record_not_15_bytes :
  ~ (exists b, _write_property (BoolProperty (lit "X") 0 0 true) = Ok b /\ length b = 15%nat).
Proof.
  intros [b [Hw Hl]]. vm_compute in Hw. injection Hw as <-. vm_compute in Hl. discriminate.
Qed.

(** C7 (amended).  The BoolProperty record "X" (name FString 6 bytes, type
    FString 17 bytes, size 0, tag 0, value 01, separator 00) is 33 bytes; it
    decodes to a Bool "X" with value true, tag 0 and size 0, consuming all 33
    bytes, and the writer re-emits exactly these 33 bytes. *)
Theorem bool_record_round_trip :
  forall fuel,
    _read_property (S fuel) bool_record 0 = Ok (Some (BoolProperty (lit "X") 0 0 true), 33) /\
    _write_property (BoolProperty (lit "X") 0 0 true) = Ok bool_record /\
    length bool_record = 33%nat.
Proof. intros fuel. split; [|split]; vm_compute; reflexivity. Qed.

(** ** Slices *)

Lemma py_slice_length {A} (l : list A) (a b : Z) :
  0 <= a <= b -> b <= py_len l -> length (py_slice l a b) = Z.to_nat (b - a).
Proof.
  intros Hab Hb. unfold py_slice, py_norm, py_len in *.
  destruct (a <? 0) eqn:Ha; [apply Z.ltb_lt in Ha; lia|].
  destruct (b <? 0) eqn:Hb'; [apply Z.ltb_lt in Hb'; lia|].
  rewrite (Z.min_l a) by lia. rewrite (Z.min_l b) by lia.
  rewrite firstn_length_le; [lia|]. rewrite length_skipn. lia.
Qed.

(** C4 (code defect).  Past the count field, an [Array<ByteProperty>] body
    advances the offset by [prop_size - 4] but stores [prop_size] bytes when
    the buffer holds them: the stored payload runs four bytes into whatever
    follows. *)
Theorem array_byte_payload_length rp fuel name prop_size prop_tag data offset o1
    array_size o2
    (Hinner : _read_string data offset = Ok (lit "ByteProperty", o1))
    (Hnul : py_index data o1 = Ok 0)
    (Hcount : _read_u32 data (o1 + 1) = Ok (array_size, o2))
    (Hpos : 0 <= o2) (Hsize : 0 <= prop_size) (Hfit : o2 + prop_size <= py_len data) :
  exists values,
    ArrayProperty_from_bytes rp fuel name prop_size prop_tag data offset
    = Ok (ArrayProperty name prop_tag prop_size (lit "ByteProperty") array_size (AVRaw values),
          o2 + (prop_size - 4)) /\
    length values = Z.to_nat prop_size.
Proof.
  exists (py_slice data o2 (o2 + prop_size)). split.
  - unfold ArrayProperty_from_bytes, skip_null. rewrite Hinner. simpl bind.
    rewrite Hnul. simpl. rewrite Hcount. simpl. reflexivity.
  - rewrite py_slice_length by lia. f_equal. lia.
Qed.

(** C4 witness: the array "A" of [byte_array_stream] (size 7, count 3) keeps
    the seven bytes 01 02 03 05 00 00 00 and the offset lands on the
    sentinel's first byte. *)
Lemma array_byte_payload_length_witness :
  exists values,
    ArrayProperty_from_bytes (_read_property 3) 3 (lit "A") 7 0 byte_array_stream 32
    = Ok (ArrayProperty (lit "A") 0 7 (lit "ByteProperty") 3 (AVRaw values), 54 + (7 - 4)) /\
    length values = Z.to_nat 7.
Proof.
  apply (array_byte_payload_length (_read_property 3) 3 (lit "A") 7 0 byte_array_stream 32 49 3 54);
    vm_compute; try reflexivity; discriminate.
Defined.

(** ** Custom-versions variants *)

Lemma read_string_err (data : bytes) (o : Z) (e : exn) :
  _read_string data o = Err e -> e = StructError.
Proof.
  unfold _read_string, _read_i32, unpack_raw.
  destruct (_ && _); [simpl; congruence|].
  destruct (_ <? 4); simpl; [congruence|].
  destruct (_ =? 0); [congruence|]. destruct (_ <? 0); congruence.
Qed.

Lemma entry_plain_read (data : bytes) (o : Z) :
  Script.entry_plain data o =
  match read_custom_version data o with
  | Ok ((g, v), o') => Ok ((g, v, None), o')
  | Err e => Err e
  end.
Proof.
  unfold Script.entry_plain, read_custom_version.
  destruct (_read_guid data o) as [guid o1].
  destruct (_read_i32 data o1) as [[ver o2]|e]; reflexivity.
Qed.

Lemma read_n_entry_plain (data : bytes) :
  forall n o,
    read_n n (Script.entry_plain data) o =
    match read_n n (read_custom_version data) o with
    | Ok (cvs, o') => Ok (map (fun e => (fst e, snd e, None)) cvs, o')
    | Err e => Err e
    end.
Proof.
  induction n as [|n IH]; intros o; [reflexivity|].
  cbn [read_n]. rewrite entry_plain_read.
  destruct (read_custom_version data o) as [[[g v] o1]|e]; cbn [bind]; [|reflexivity].
  rewrite IH. destruct (read_n n (read_custom_version data) o1) as [[cvs o3]|e]; reflexivity.
Qed.

Lemma commit_match (m : result (option Script.cv_outcome)) (k : result Script.cv_outcome) :
  match m with Ok (Some r) => Ok r | _ => k end =
  match Script.commit m with Some r => Ok r | None => k end.
Proof. destruct m as [[r|]|e]; reflexivity. Qed.

Lemma attempt_a_spec (data : bytes) (base : Z) :
  Script.commit (Script.attempt_a data base) = Script.spec_attempt Script.variant_A data base.
Proof.
  unfold Script.commit, Script.attempt_a, Script.spec_attempt; simpl.
  destruct (_read_i32 data base) as [[fmt o]|e]; simpl; [|reflexivity].
  destruct (_read_i32 data o) as [[cnt o2]|e]; simpl; [|reflexivity].
  destruct (0 <=? cnt), (cnt <=? 10000), (0 <=? fmt), (fmt <=? 10); simpl; try reflexivity;
  destruct (read_n _ _ o2) as [[cvs o3]|e]; simpl; try reflexivity;
  destruct (_read_string data o3) as [[cls o4]|e]; simpl; try reflexivity;
  destruct (_plausible_class_name cls); reflexivity.
Qed.

Lemma attempt_b_spec (data : bytes) (base : Z) :
  Script.commit (Script.attempt_b data base) = Script.spec_attempt Script.variant_B data base.
Proof.
  unfold Script.commit, Script.attempt_b, Script.spec_attempt; simpl.
  destruct (_read_i32 data base) as [[fmt o]|e]; simpl; [|reflexivity].
  destruct (_read_i32 data o) as [[cnt o2]|e]; simpl; [|reflexivity].
  destruct (0 <=? cnt), (cnt <=? 10000), (0 <=? fmt), (fmt <=? 10); simpl; try reflexivity;
  destruct (read_n _ _ o2) as [[cvs o3]|e]; simpl; try reflexivity;
  destruct (_read_string data o3) as [[cls o4]|e]; simpl; try reflexivity;
  destruct (_plausible_class_name cls); reflexivity.
Qed.

Lemma attempt_c_spec (data : bytes) (base : Z) :
  Script.commit (Script.attempt_c data base) = Script.spec_attempt Script.variant_C data base.
Proof.
  unfold Script.commit, Script.attempt_c, Script.spec_attempt; simpl.
  destruct (_read_i32 data base) as [[cnt o]|e]; simpl; [|reflexivity].
  destruct (0 <=? cnt), (cnt <=? 10000); simpl; try reflexivity;
  destruct (read_n _ _ o) as [[cvs o3]|e]; simpl; try reflexivity;
  destruct (_read_string data o3) as [[cls o4]|e]; simpl; try reflexivity;
  destruct (_plausible_class_name cls); reflexivity.
Qed.

Lemma attempt_d_spec (data : bytes) (base : Z) :
  Script.commit (Script.attempt_d data base) = Script.spec_attempt Script.variant_D data base.
Proof.
  unfold Script.commit, Script.attempt_d, Script.spec_attempt; simpl.
  destruct (_read_i32 data base) as [[cnt o]|e]; simpl; [|reflexivity].
  destruct (0 <=? cnt), (cnt <=? 10000); simpl; try reflexivity;
  destruct (read_n _ _ o) as [[cvs o3]|e]; simpl; try reflexivity;
  destruct (_read_string data o3) as [[cls o4]|e]; simpl; try reflexivity;
  destruct (_plausible_class_name cls); reflexivity.
Qed.

Lemma pkg_is_variant_A (data : bytes) (base : Z) :
  pkg_custom_versions data base = Script.spec_attempt Script.variant_A data base.
Proof.
  unfold pkg_custom_versions, read_custom_versions_pkg, Script.spec_attempt; simpl.
  destruct (_read_i32 data base) as [[fmt o]|e]; simpl; [|reflexivity].
  destruct (_read_i32 data o) as [[cnt o2]|e]; simpl; [|reflexivity].
  destruct (0 <=? cnt), (cnt <=? 10000), (0 <=? fmt), (fmt <=? 10); simpl; try reflexivity;
  rewrite read_n_entry_plain;
  destruct (read_n _ (read_custom_version data) o2) as [[cvs o3]|e]; simpl; try reflexivity;
  destruct (_read_string data o3) as [[cls o4]|e]; simpl; try reflexivity;
  destruct (_plausible_class_name cls); reflexivity.
Qed.

(** C3, as the claim states it, fails for the package decoder: on the
    variant-E record "/Game/A.B_C" (whose length 12 reads as an out-of-range
    [fmt]) the variant sequence commits to E, while [_read_gvas_header]
    raises [ValueError]. *)
Lemma pkg_custom_versions_not_variant_sequence :
  ~ (forall data base, pkg_custom_versions data base = Script.spec_custom_versions data base).
Proof.
  intro H. specialize (H variant_E_record 0).
  vm_compute in H. discriminate H.
Qed.

(** C3 (amended).  The package decoder behind [read_savefile] reads the
    custom versions as variant A only (fmt, count, (GUID, version) pairs,
    class name) and yields a result exactly when variant A parses with a
    plausible class name, raising otherwise.  The standalone script's
    [parse_gvas_header] attempts A, B, C, D, E in that order and commits to
    the first whose class name is plausible; when none is, it stores no
    class name and keeps the offset, unless the class-name-only read itself
    runs past the buffer. *)
Theorem custom_versions_variants (data : bytes) (base : Z) :
  pkg_custom_versions data base = Script.spec_attempt Script.variant_A data base /\
  match Script.spec_custom_versions data base with
  | Some r => Script.parse_custom_versions data base = Ok r
  | None =>
    Script.parse_custom_versions data base = Ok (Script.mkOutcome None None None base) \/
    Script.parse_custom_versions data base = Err StructError
  end.
Proof.
  split; [apply pkg_is_variant_A|].
  unfold Script.parse_custom_versions, Script.spec_custom_versions. simpl.
  rewrite !commit_match, attempt_a_spec, attempt_b_spec, attempt_c_spec, attempt_d_spec.
  destruct (Script.spec_attempt Script.variant_A data base); [reflexivity|].
  destruct (Script.spec_attempt Script.variant_B data base); [reflexivity|].
  destruct (Script.spec_attempt Script.variant_C data base); [reflexivity|].
  destruct (Script.spec_attempt Script.variant_D data base); [reflexivity|].
  unfold Script.spec_attempt_E.
  destruct (_read_string data base) as [[cls o]|e] eqn:Hs; simpl.
  - destruct (_plausible_class_name cls); [reflexivity|left; reflexivity].
  - right. apply read_string_err in Hs. subst. reflexivity.
Qed.

(** ** GUID codec *)

Lemma split_on_nonnil (sep : Z) (g : pystr) : split_on sep g <> [].
Proof.
  destruct g as [|c r]; simpl; [discriminate|].
  destruct (c =? sep); [discriminate|]. destruct (split_on sep r); discriminate.
Qed.

Lemma split_on_join (sep : Z) (g : pystr) : join_on sep (split_on sep g) = g.
Proof.
  induction g as [|c r IH]; [reflexivity|]. simpl.
  destruct (c =? sep) eqn:E.
  - apply Z.eqb_eq in E. subst c.
    pose proof (split_on_nonnil sep r) as Hn.
    destruct (split_on sep r) as [|p ps]; [congruence|]. simpl. rewrite <- IH. reflexivity.
  - pose proof (split_on_nonnil sep r) as Hn.
    destruct (split_on sep r) as [|p ps]; [congruence|].
    destruct ps as [|q qs]; simpl in *; rewrite <- IH; reflexivity.
Qed.

Lemma lower_hex_digit (c : Z) :
  is_lower_hex c = true ->
  exists v, hex_val c = Some v /\ 0 <= v < 16 /\ hex_digit v = c /\ is_space c = false.
Proof.
  unfold is_lower_hex, hex_val, in_rng, is_space.
  repeat match goal with
         | |- context [?a <=? ?b] => destruct (Z.leb_spec a b)
         | |- context [?a =? ?b] => destruct (Z.eqb_spec a b)
         end; cbn [andb orb]; intros Hc; try discriminate; try lia;
    eexists; (split; [reflexivity|]); unfold hex_digit;
    match goal with |- context [?a <? ?b] => destruct (Z.ltb_spec a b) end;
    repeat split; try lia; unfold in_rng;
    destruct (Z.leb_spec 9 c); destruct (Z.leb_spec c 13); reflexivity || lia.
Qed.

Lemma fromhex_group :
  forall n p, length p = (2 * n)%nat -> forallb is_lower_hex p = true ->
  exists b, fromhex p = Ok b /\ hex b = p /\ length b = n.
Proof.
  induction n as [|n IH]; intros p Hl Hh.
  - destruct p; [|discriminate]. exists []. repeat split.
  - destruct p as [|c1 [|c2 r]]; try (simpl in Hl; lia).
    simpl in Hh. apply andb_true_iff in Hh as [H1 Hh]. apply andb_true_iff in Hh as [H2 Hr].
    destruct (lower_hex_digit c1 H1) as [v1 [Hv1 [Hr1 [Hd1 Hs1]]]].
    destruct (lower_hex_digit c2 H2) as [v2 [Hv2 [Hr2 [Hd2 _]]]].
    destruct (IH r) as [b [Hb [Hhb Hlb]]]; [simpl in Hl; lia|exact Hr|].
    exists ((v1 * 16 + v2) :: b). simpl. rewrite Hs1, Hv1, Hv2, Hb. simpl.
    repeat split; [|lia].
    replace ((v1 * 16 + v2) / 16) with v1
      by (rewrite Z.div_add_l, Z.div_small by lia; lia).
    replace ((v1 * 16 + v2) mod 16) with v2
      by (rewrite Z.add_comm, Z.mod_add, Z.mod_small by lia; reflexivity).
    rewrite Hd1, Hd2, Hhb. reflexivity.
Qed.

Lemma read_guid_groups (b1 b2 b3 b4 b5 : bytes) :
  length b1 = 4%nat -> length b2 = 2%nat -> length b3 = 2%nat -> length b4 = 2%nat ->
  length b5 = 6%nat ->
  _read_guid (rev b1 ++ rev b2 ++ rev b3 ++ b4 ++ b5) 0 =
  (hex b1 ++ [dash] ++ hex b2 ++ [dash] ++ hex b3 ++ [dash] ++ hex b4 ++ [dash] ++ hex b5, 16).
Proof.
  intros H1 H2 H3 H4 H5.
  destruct b1 as [|x1 [|x2 [|x3 [|x4 [|]]]]]; try discriminate.
  destruct b2 as [|y1 [|y2 [|]]]; try discriminate.
  destruct b3 as [|z1 [|z2 [|]]]; try discriminate.
  destruct b4 as [|u1 [|u2 [|]]]; try discriminate.
  destruct b5 as [|w1 [|w2 [|w3 [|w4 [|w5 [|w6 [|]]]]]]]; try discriminate.
  reflexivity.
Qed.

(** C8.  For every canonical GUID string [g], [_read_guid] applied to the
    16 bytes [_write_guid g] returns [g]; the bytes 00 11 .. FF read as
    "33221100-5544-7766-8899-aabbccddeeff", and writing that string gives the
    bytes back. *)
Theorem guid_round_trip (g : pystr) (Hg : canonical_guid g = true) :
  _read_guid (_write_guid g) 0 = (g, 16) /\
  fst (_read_guid sample_guid_bytes 0) = lit "33221100-5544-7766-8899-aabbccddeeff" /\
  _write_guid (lit "33221100-5544-7766-8899-aabbccddeeff") = sample_guid_bytes.
Proof.
  split; [|split; vm_compute; reflexivity].
  unfold canonical_guid in Hg.
  destruct (split_on dash g) as [|p1 [|p2 [|p3 [|p4 [|p5 [|]]]]]] eqn:Hs; try discriminate.
  rewrite !andb_true_iff in Hg.
  destruct Hg as [[[[[L1 L2] L3] L4] L5] Hx].
  apply Nat.eqb_eq in L1, L2, L3, L4, L5.
  rewrite !forallb_app, !andb_true_iff in Hx. destruct Hx as [X1 [X2 [X3 [X4 X5]]]].
  destruct (fromhex_group 4 p1) as [b1 [F1 [E1 K1]]]; [lia|assumption|].
  destruct (fromhex_group 2 p2) as [b2 [F2 [E2 K2]]]; [lia|assumption|].
  destruct (fromhex_group 2 p3) as [b3 [F3 [E3 K3]]]; [lia|assumption|].
  destruct (fromhex_group 2 p4) as [b4 [F4 [E4 K4]]]; [lia|assumption|].
  destruct (fromhex_group 6 p5) as [b5 [F5 [E5 K5]]]; [lia|assumption|].
  unfold _write_guid. rewrite Hs, F1, F2, F3, F4, F5. simpl bind.
  rewrite K1, K2, K3, K4, K5. simpl.
  rewrite read_guid_groups by assumption.
  rewrite <- (split_on_join dash g), Hs, E1, E2, E3, E4, E5. reflexivity.
Qed.

(** C8 witness: the canonical string of the sample bytes. *)
Lemma guid_round_trip_witness :
  _read_guid (_write_guid (lit "33221100-5544-7766-8899-aabbccddeeff")) 0
    = (lit "33221100-5544-7766-8899-aabbccddeeff", 16) /\
  fst (_read_guid sample_guid_bytes 0) = lit "33221100-5544-7766-8899-aabbccddeeff" /\
  _write_guid (lit "33221100-5544-7766-8899-aabbccddeeff") = sample_guid_bytes.
Proof.
  apply (guid_round_trip (lit "33221100-5544-7766-8899-aabbccddeeff")). vm_compute. reflexivity.
Defined.

(** ** Explicit decompression methods *)

(** C9.  An explicit method runs its own codec and nothing else: "none"
    returns the input unchanged, and a failure of the chosen codec (or its
    absence, for lz4 and zstd) raises a [DecompressionError] whose message
    starts with the codec's name. *)
Theorem explicit_method_exact
    (zl zr gz : bytes -> bytes + pystr) (lz zs : option (bytes -> bytes + pystr))
    (raw : bytes) :
  let dp := decompress_payload zl zr gz lz zs raw in
  dp (lit "none") = Ok raw /\
  dp (lit "zlib") =
    match zl raw with
    | inl out => Ok out
    | inr msg => Err (DecompressionError (lit "zlib" ++ lit " failed: " ++ msg))
    end /\
  dp (lit "deflate") =
    match zr raw with
    | inl out => Ok out
    | inr msg => Err (DecompressionError (lit "deflate" ++ lit " failed: " ++ msg))
    end /\
  dp (lit "gzip") =
    match gz raw with
    | inl out => Ok out
    | inr msg => Err (DecompressionError (lit "gzip" ++ lit " failed: " ++ msg))
    end /\
  dp (lit "lz4") =
    match lz with
    | None => Err (DecompressionError (lit "lz4" ++ lit " not available. Install 'lz4' package."))
    | Some f =>
      match f raw with
      | inl out => Ok out
      | inr msg => Err (DecompressionError (lit "lz4" ++ lit " failed: " ++ msg))
      end
    end /\
  dp (lit "zstd") =
    match zs with
    | None => Err (DecompressionError (lit "zstd" ++ lit " not available. Install 'zstandard' package."))
    | Some f =>
      match f raw with
      | inl out => Ok out
      | inr msg => Err (DecompressionError (lit "zstd" ++ lit " failed: " ++ msg))
      end
    end.
Proof.
  cbv zeta. unfold decompress_payload.
  repeat split; vm_compute;
    try (destruct (zl raw)); try (destruct (zr raw)); try (destruct (gz raw));
    try (destruct lz as [f|]; [destruct (f raw)|]);
    try (destruct zs as [f|]; [destruct (f raw)|]); reflexivity.
Qed.

(** ** Property names of a decoded tree *)

Lemma bind_ok {A B} (m : result A) (k : A -> result B) (b : B) :
  bind m k = Ok b -> exists a, m = Ok a /\ k a = Ok b.
Proof. destruct m as [a|e]; simpl; [eauto|discriminate]. Qed.

(** Take apart a hypothesis [reader = Ok v] along the reader's binds,
    pattern lets and conditionals. *)
Ltac inv_ok H :=
  repeat match type of H with
  | bind _ _ = Ok _ =>
    let a := fresh "a" in let Hm := fresh "Hm" in
    apply bind_ok in H; destruct H as [a [Hm H]]; cbv beta in H
  | match ?x with (_, _) => _ end = Ok _ => destruct x
  | match ?x with None => _ | Some _ => _ end = Ok _ => destruct x
  | (if ?c then _ else _) = Ok _ => let Hc := fresh "Hc" in destruct c eqn:Hc
  | Err _ = Ok _ => discriminate H
  | Ok _ = Ok _ => injection H; clear H; intros; subst
  end.

Section Names.
Variable rp : bytes -> Z -> result (option property * Z).
Hypothesis rp_names : forall d o0 q o1, rp d o0 = Ok (Some q, o1) -> names_ok q = true.

Lemma read_until_names (fuel : nat) :
  forall data offset end_offset ps o,
  read_until rp fuel data offset end_offset = Ok (ps, o) -> forallb names_ok ps = true.
Proof.
  induction fuel as [|f IH]; intros data offset end_offset ps o H; simpl in H; [discriminate|].
  inv_ok H; try reflexivity.
  simpl. rewrite (rp_names _ _ _ _ Hm). simpl. eapply IH; eassumption.
Qed.

Lemma create_property_names (fuel : nat) (name prop_type : pystr) (size tag : Z)
    (data : bytes) (offset : Z) (p : property) (o : Z) :
  str_eqb name [] = false ->
  create_property rp fuel name prop_type size tag data offset = Ok (p, o) ->
  names_ok p = true.
Proof.
  intros Hn H. unfold create_property in H.
  repeat match type of H with
         | (if ?c then _ else _) = _ => let Hc := fresh "Hc" in destruct c eqn:Hc
         end; try discriminate H;
  match type of H with
  | ?f _ _ _ _ _ _ _ = _ => unfold f in H
  | ?f _ _ _ _ _ = _ => unfold f in H
  end;
  inv_ok H; simpl; rewrite ?Hn; try reflexivity;
  eapply read_until_names; eassumption.
Qed.

End Names.

Lemma read_property_names (fuel : nat) :
  forall data offset p o,
  _read_property fuel data offset = Ok (Some p, o) -> names_ok p = true.
Proof.
  induction fuel as [|f IH]; intros data offset p o H; [discriminate|].
  cbn [_read_property] in H. inv_ok H; try discriminate.
  apply orb_false_iff in Hc as [_ Hn].
  eapply create_property_names; [exact IH|exact Hn|eassumption].
Qed.

Lemma read_properties_names (fuel : nat) :
  forall data offset end_offset ps o,
  _read_properties fuel data offset end_offset = Ok (ps, o) -> forallb names_ok ps = true.
Proof.
  induction fuel as [|f IH]; intros data offset end_offset ps o H; [discriminate|].
  cbn [_read_properties] in H. inv_ok H; try reflexivity.
  - simpl. rewrite (read_property_names _ _ _ _ _ Hm). eapply IH; eassumption.
  - eapply IH; eassumption.
Qed.

(** C10.  A name FString that reads as the empty string ends the stream
    exactly as "None" does: [_read_property] returns no property and the
    offset just past the name; hence no node of a decoded tree, at any
    nesting level, has an empty name. *)
Theorem empty_name_is_terminator (fuel : nat) (data : bytes) (offset : Z) :
  (forall o', _read_string data offset = Ok ([], o') ->
     _read_property (S fuel) data offset = Ok (None, o')) /\
  (forall o', _read_string data offset = Ok (lit "None", o') ->
     _read_property (S fuel) data offset = Ok (None, o')) /\
  (forall p o, _read_property fuel data offset = Ok (Some p, o) -> names_ok p = true) /\
  (forall end_offset ps o, _read_properties fuel data offset end_offset = Ok (ps, o) ->
     forallb names_ok ps = true).
Proof.
  split; [|split; [|split]].
  - intros o' H. cbn [_read_property]. rewrite H. reflexivity.
  - intros o' H. cbn [_read_property]. rewrite H. reflexivity.
  - apply read_property_names.
  - intros end_offset. apply read_properties_names.
Qed.

(** C10 witness: a name of length 0 at offset 0 ends the stream at offset 4. *)
Lemma empty_name_is_terminator_witness :
  _read_property 3 (u32le 0) 0 = Ok (None, 4).
Proof.
  apply (proj1 (empty_name_is_terminator 2 (u32le 0) 0) 4). vm_compute. reflexivity.
Defined.

(** ** Reading at an offset into concatenated buffers *)

Lemma py_len_app {A} (l1 l2 : list A) : py_len (l1 ++ l2) = py_len l1 + py_len l2.
Proof. unfold py_len. rewrite length_app. lia. Qed.

Lemma py_len_nonneg {A} (l : list A) : 0 <= py_len l.
Proof. unfold py_len. lia. Qed.

Lemma py_len_to_nat {A} (l : list A) : Z.to_nat (py_len l) = length l.
Proof. unfold py_len. lia. Qed.

Lemma skipn_len_app {A} (pre l : list A) : skipn (length pre) (pre ++ l) = l.
Proof. rewrite skipn_app, skipn_all, Nat.sub_diag, skipn_O. reflexivity. Qed.

Lemma firstn_len_app {A} (l r : list A) : firstn (length l) (l ++ r) = l.
Proof. rewrite firstn_app, Nat.sub_diag, firstn_O, app_nil_r, firstn_all. reflexivity. Qed.

Lemma py_slice_at {A} (pre l : list A) (k : Z) :
  0 <= k -> py_slice (pre ++ l) (py_len pre) (py_len pre + k) = firstn (Z.to_nat k) l.
Proof.
  intros Hk. unfold py_slice, py_norm. rewrite py_len_app.
  pose proof (py_len_nonneg pre). pose proof (py_len_nonneg l).
  replace (py_len pre <? 0) with false by (symmetry; apply Z.ltb_ge; lia).
  replace (py_len pre + k <? 0) with false by (symmetry; apply Z.ltb_ge; lia).
  rewrite (Z.min_l (py_len pre)) by lia.
  rewrite py_len_to_nat, skipn_len_app.
  destruct (Z.le_ge_cases (py_len pre + k) (py_len pre + py_len l)).
  - rewrite Z.min_l by lia. f_equal. lia.
  - rewrite Z.min_r by lia. unfold py_len in *.
    rewrite !firstn_all2; [reflexivity|lia|lia].
Qed.

Lemma unpack_raw_at (k : Z) (pre l : bytes) :
  0 <= k -> unpack_raw k (pre ++ l) (py_len pre) =
  if py_len l <? k then Err StructError else Ok (firstn (Z.to_nat k) l).
Proof.
  intros Hk. unfold unpack_raw. rewrite py_len_app.
  pose proof (py_len_nonneg pre). pose proof (py_len_nonneg l).
  replace (py_len pre <? 0) with false by (symmetry; apply Z.ltb_ge; lia). simpl.
  replace (py_len pre + py_len l - py_len pre) with (py_len l) by lia.
  destruct (py_len l <? k); [reflexivity|].
  rewrite py_len_to_nat, skipn_len_app. reflexivity.
Qed.

Lemma le_bytes_length (k : nat) : forall v, length (le_bytes k v) = k.
Proof. induction k as [|k IH]; intros v; simpl; [|rewrite IH]; reflexivity. Qed.

Lemma mod_256_mul (v m : Z) :
  0 < m -> v mod (256 * m) = v mod 256 + 256 * ((v / 256) mod m).
Proof.
  intros Hm. symmetry. apply Z.mod_unique with ((v / 256) / m).
  - left. pose proof (Z.mod_pos_bound v 256). pose proof (Z.mod_pos_bound (v / 256) m Hm). lia.
  - rewrite (Z.div_mod v 256) at 1 by lia. rewrite (Z.div_mod (v / 256) m) at 1 by lia. ring.
Qed.

Lemma le_val_le_bytes (k : nat) : forall v, le_val (le_bytes k v) = v mod 2 ^ (8 * Z.of_nat k).
Proof.
  induction k as [|k IH]; intros v; simpl le_bytes; simpl le_val.
  - rewrite Z.mod_1_r. reflexivity.
  - rewrite IH. replace (8 * Z.of_nat (S k)) with (8 + 8 * Z.of_nat k) by lia.
    rewrite Z.pow_add_r by lia. replace (2 ^ 8) with 256 by reflexivity.
    rewrite mod_256_mul by (apply Z.pow_pos_nonneg; lia). reflexivity.
Qed.

Lemma unpack_le_at (k : nat) (pre rest : bytes) (v : Z) :
  unpack_raw (Z.of_nat k) (pre ++ le_bytes k v ++ rest) (py_len pre) = Ok (le_bytes k v).
Proof.
  rewrite unpack_raw_at by lia. rewrite py_len_app.
  unfold py_len at 1. rewrite le_bytes_length.
  pose proof (py_len_nonneg rest).
  replace (Z.of_nat k + py_len rest <? Z.of_nat k) with false by (symmetry; apply Z.ltb_ge; lia).
  rewrite Nat2Z.id. rewrite <- (le_bytes_length k v) at 1. rewrite firstn_len_app. reflexivity.
Qed.

Lemma land_mask (v n : Z) : 0 <= n -> Z.land v (2 ^ n - 1) = v mod 2 ^ n.
Proof. intros Hn. rewrite <- Z.land_ones by lia. rewrite Z.ones_equiv. unfold Z.pred. reflexivity. Qed.

Lemma i32_signed (v : Z) : - 2 ^ 31 <= v < 2 ^ 31 -> to_signed 32 (v mod 2 ^ 32) = v.
Proof.
  intros Hv. unfold to_signed. replace (32 - 1) with 31 by lia.
  destruct (Z.le_gt_cases 0 v).
  - rewrite Z.mod_small by lia. replace (v <? 2 ^ 31) with true by (symmetry; apply Z.ltb_lt; lia).
    reflexivity.
  - replace (v mod 2 ^ 32) with (v + 2 ^ 32)
      by (apply Z.mod_unique with (-1); lia).
    replace (v + 2 ^ 32 <? 2 ^ 31) with false by (symmetry; apply Z.ltb_ge; lia). lia.
Qed.

Lemma write_i32_ok (v : Z) :
  - 2 ^ 31 <= v < 2 ^ 31 -> _write_i32 v = Ok (le_bytes 4 (v mod 2 ^ 32)).
Proof.
  intros Hv. unfold _write_i32.
  replace (- 2 ^ 31 <=? v) with true by (symmetry; apply Z.leb_le; lia).
  replace (v <? 2 ^ 31) with true by (symmetry; apply Z.ltb_lt; lia). reflexivity.
Qed.

Lemma read_i32_at (pre rest : bytes) (v : Z) :
  - 2 ^ 31 <= v < 2 ^ 31 ->
  _read_i32 (pre ++ le_bytes 4 (v mod 2 ^ 32) ++ rest) (py_len pre) = Ok (v, py_len pre + 4).
Proof.
  intros Hv. unfold _read_i32. rewrite (unpack_le_at 4). cbn [bind].
  rewrite le_val_le_bytes, Z.mod_mod by lia. rewrite i32_signed by lia. reflexivity.
Qed.

(** X1.  [_write_u32] keeps the low 32 bits of any integer, and [_read_u32]
    at the offset where those four bytes start returns them, whatever
    precedes or follows. *)
Theorem read_write_u32 (pre rest : bytes) (v : Z) :
  _read_u32 (pre ++ _write_u32 v ++ rest) (py_len pre) = Ok (v mod 2 ^ 32, py_len pre + 4).
Proof.
  unfold _read_u32, _write_u32. rewrite (unpack_le_at 4). cbn [bind].
  rewrite le_val_le_bytes, land_mask by lia. rewrite Z.mod_mod by lia. reflexivity.
Qed.

(** X2.  [_write_u16] keeps the low 16 bits of any integer, and [_read_u16]
    reads them back at their offset. *)
Theorem read_write_u16 (pre rest : bytes) (v : Z) :
  _read_u16 (pre ++ _write_u16 v ++ rest) (py_len pre) = Ok (v mod 2 ^ 16, py_len pre + 2).
Proof.
  unfold _read_u16, _write_u16. rewrite (unpack_le_at 2). cbn [bind].
  rewrite le_val_le_bytes, land_mask by lia. rewrite Z.mod_mod by lia. reflexivity.
Qed.

(** X3.  Every signed 32-bit integer is written by [_write_i32] as four
    bytes from which [_read_i32] reads the same integer. *)
Theorem read_write_i32 (pre rest : bytes) (v : Z) (Hv : - 2 ^ 31 <= v < 2 ^ 31) :
  exists b, _write_i32 v = Ok b /\ _read_i32 (pre ++ b ++ rest) (py_len pre) = Ok (v, py_len pre + 4).
Proof.
  exists (le_bytes 4 (v mod 2 ^ 32)). split; [apply write_i32_ok; lia|apply read_i32_at; lia].
Qed.

Lemma read_write_i32_witness :
  exists b, _write_i32 (-2) = Ok b /\ _read_i32 ([7] ++ b ++ []) (py_len [7]) = Ok (-2, py_len [7] + 4).
Proof. apply (read_write_i32 [7] [] (-2)). lia. Defined.



(** ** FString round trips *)

Lemma utf8_encode_ascii (s : pystr) : ascii_text s = true -> utf8_encode s = Ok s.
Proof.
  intros Hs. unfold utf8_encode.
  replace (existsb is_surrogate s) with false.
  - f_equal. induction s as [|c r IH]; [reflexivity|].
    simpl in Hs. apply andb_true_iff in Hs as [Hc Hr]. apply andb_true_iff in Hc as [_ Hc].
    simpl. unfold utf8_encode_cp at 1. rewrite Hc. simpl. rewrite IH by exact Hr. reflexivity.
  - symmetry. apply not_true_iff_false. intros He. apply existsb_exists in He as [c [Hin Hsur]].
    unfold ascii_text in Hs. rewrite forallb_forall in Hs. specialize (Hs c Hin).
    unfold is_surrogate in Hsur. rewrite !andb_true_iff, Z.leb_le, Z.ltb_lt in Hs.
    rewrite andb_true_iff, !Z.leb_le in Hsur. lia.
Qed.

Lemma utf8_decode_ascii (l : bytes) :
  forallb (fun c => c <? 128) l = true -> utf8_decode_ignore l = l.
Proof.
  induction l as [|c r IH]; intros H; [reflexivity|].
  simpl in H. apply andb_true_iff in H as [Hc Hr]. simpl. rewrite Hc, IH by exact Hr. reflexivity.
Qed.

Lemma rstrip_nul_app (s : pystr) :
  forallb (fun c => negb (c =? 0)) s = true -> rstrip_nul (s ++ [0]) = s.
Proof.
  intros Hs. unfold rstrip_nul. rewrite rev_app_distr. simpl.
  destruct (rev s) as [|c r] eqn:E.
  - rewrite <- (rev_involutive s), E. reflexivity.
  - assert (Hc : c <> 0).
    { assert (In c s) as Hin by (apply in_rev; rewrite E; left; reflexivity).
      rewrite forallb_forall in Hs. specialize (Hs c Hin). apply negb_true_iff, Z.eqb_neq in Hs.
      exact Hs. }
    destruct c; [contradiction|..]; rewrite <- E, rev_involutive; reflexivity.
Qed.

Lemma ascii_text_props (s : pystr) :
  ascii_text s = true ->
  forallb (fun c => c <? 128) (s ++ [0]) = true /\ forallb (fun c => negb (c =? 0)) s = true.
Proof.
  unfold ascii_text. induction s as [|c r IH]; intros H; [split; reflexivity|].
  simpl in H. apply andb_true_iff in H as [Hc Hr]. destruct (IH Hr) as [H1 H2].
  apply andb_true_iff in Hc as [Hc1 Hc2]. apply Z.leb_le in Hc1.
  simpl. rewrite Hc2, H1, H2. replace (c =? 0) with false by (symmetry; apply Z.eqb_neq; lia).
  split; reflexivity.
Qed.

Lemma string_ascii_at (pre rest : bytes) (s : pystr)
    (Hs : ascii_text s = true) (Hlen : py_len s < 2 ^ 31 - 1) :
  exists b, _write_string s = Ok b /\
    py_len b = 4 + (match s with [] => 0 | _ => py_len s + 1 end) /\
    _read_string (pre ++ b ++ rest) (py_len pre) = Ok (s, py_len pre + py_len b).
Proof.
  pose proof (py_len_nonneg s) as Hn.
  destruct s as [|c r] eqn:Es.
  - exists (le_bytes 4 (0 mod 2 ^ 32)). split; [reflexivity|split; [reflexivity|]].
    unfold _read_string. rewrite read_i32_at by lia. reflexivity.
  - rewrite <- Es in *.
    exists (le_bytes 4 ((py_len s + 1) mod 2 ^ 32) ++ s ++ [0]).
    assert (Hw : _write_string s = Ok (le_bytes 4 ((py_len s + 1) mod 2 ^ 32) ++ s ++ [0])).
    { rewrite Es at 1. cbv beta iota delta [_write_string]. rewrite <- Es.
      rewrite write_i32_ok by lia. cbn [bind]. rewrite utf8_encode_ascii by exact Hs. reflexivity. }
    assert (Hb : py_len (le_bytes 4 ((py_len s + 1) mod 2 ^ 32) ++ s ++ [0]) = 4 + (py_len s + 1)).
    { rewrite !py_len_app. unfold py_len at 1. rewrite le_bytes_length. reflexivity. }
    split; [exact Hw|]. split; [rewrite Hb, Es; reflexivity|].
    rewrite Hb, <- (app_assoc (le_bytes 4 _)).
    unfold _read_string. rewrite read_i32_at by lia. cbn [bind].
    replace (py_len s + 1 =? 0) with false by (symmetry; apply Z.eqb_neq; lia).
    replace (py_len s + 1 <? 0) with false by (symmetry; apply Z.ltb_ge; lia).
    rewrite app_assoc.
    replace (py_len pre + 4) with (py_len (pre ++ le_bytes 4 ((py_len s + 1) mod 2 ^ 32)))
      by (rewrite py_len_app; unfold py_len at 2; rewrite le_bytes_length; reflexivity).
    rewrite py_slice_at by lia.
    replace (Z.to_nat (py_len s + 1)) with (length (s ++ [0]))
      by (rewrite length_app; unfold py_len; simpl; lia).
    rewrite firstn_len_app.
    destruct (ascii_text_props s Hs) as [H1 H2].
    rewrite utf8_decode_ascii by exact H1. rewrite rstrip_nul_app by exact H2.
    rewrite py_len_app. unfold py_len at 2. rewrite le_bytes_length. f_equal. f_equal. lia.
Qed.

(** X5.  An ASCII string without NUL characters is written by
    [_write_string] as its length plus one, its bytes and a NUL (the empty
    string as a zero length), and [_read_string] at the start of those bytes
    returns the same string and the offset just past them. *)
Theorem read_write_string_ascii (pre rest : bytes) (s : pystr)
    (Hs : ascii_text s = true) (Hlen : py_len s < 2 ^ 31 - 1) :
  exists b, _write_string s = Ok b /\
    py_len b = 4 + (match s with [] => 0 | _ => py_len s + 1 end) /\
    _read_string (pre ++ b ++ rest) (py_len pre) = Ok (s, py_len pre + py_len b).
Proof. exact (string_ascii_at pre rest s Hs Hlen). Qed.


Lemma read_write_string_ascii_witness :
  exists b, _write_string (lit "Hi") = Ok b /\
    py_len b = 4 + (match lit "Hi" with [] => 0 | _ => py_len (lit "Hi") + 1 end) /\
    _read_string ([9] ++ b ++ [1; 2]) (py_len [9]) = Ok (lit "Hi", py_len [9] + py_len b).
Proof.
  apply (read_write_string_ascii [9] [1; 2] (lit "Hi")); [reflexivity|vm_compute; reflexivity].
Defined.

Lemma le2_val (x : Z) : 0 <= x < 65536 -> x mod 256 + 256 * ((x / 256) mod 256) = x.
Proof.
  intros Hx.
  rewrite (Z.mod_small (x / 256)) by (split; [apply Z.div_pos|apply Z.div_lt_upper_bound]; lia).
  pose proof (Z.div_mod x 256). lia.
Qed.

Lemma scalar_char (c : Z) (r : pystr) :
  scalar_text (c :: r) = true ->
  1 <= c < 1114112 /\ is_surrogate c = false /\ scalar_text r = true.
Proof.
  unfold scalar_text. simpl. rewrite !andb_true_iff, Z.leb_le, Z.ltb_lt, negb_true_iff.
  intros [[[H1 H2] H3] H4]. auto.
Qed.

Lemma utf16_decode_encode (s : pystr) :
  forall r, scalar_text s = true ->
  utf16le_decode_ignore (utf16le_encode_ignore s ++ r) = s ++ utf16le_decode_ignore r.
Proof.
  induction s as [|c s IH]; intros r Hs; [reflexivity|].
  destruct (scalar_char c s Hs) as [Hc [Hsur Hr]].
  unfold utf16le_encode_ignore. cbn [flat_map]. rewrite Hsur.
  fold (utf16le_encode_ignore s).
  destruct (Z.ltb_spec c 65536).
  - cbn [le_bytes app]. cbn [utf16le_decode_ignore].
    rewrite le2_val by lia. rewrite Hsur. cbn [negb]. rewrite IH by exact Hr. reflexivity.
  - set (c' := c - 65536).
    assert (Hq : 0 <= c' / 1024 < 1024) by (split; [apply Z.div_pos|apply Z.div_lt_upper_bound]; lia).
    assert (Hm : 0 <= c' mod 1024 < 1024) by (apply Z.mod_pos_bound; lia).
    cbn [le_bytes app]. cbn [utf16le_decode_ignore].
    rewrite (le2_val (55296 + c' / 1024)) by lia.
    rewrite (le2_val (56320 + c' mod 1024)) by lia.
    replace (is_surrogate (55296 + c' / 1024)) with true
      by (unfold is_surrogate; symmetry; apply andb_true_iff; split; apply Z.leb_le; lia).
    replace (55296 + c' / 1024 <? 56320) with true by (symmetry; apply Z.ltb_lt; lia).
    replace (in_rng 56320 57343 (56320 + c' mod 1024)) with true
      by (unfold in_rng; symmetry; apply andb_true_iff; split; apply Z.leb_le; lia).
    cbn [negb]. rewrite IH by exact Hr. cbn [app]. f_equal.
    pose proof (Z.div_mod c' 1024). unfold c' in *. lia.
Qed.

Lemma utf16_encode_even (s : pystr) : exists k, py_len (utf16le_encode_ignore s) = 2 * k.
Proof.
  induction s as [|c s [k IH]]; [exists 0; reflexivity|].
  unfold utf16le_encode_ignore in *. cbn [flat_map]. cbv beta. rewrite py_len_app, IH.
  destruct (is_surrogate c); [exists k; reflexivity|].
  destruct (c <? 65536); [exists (k + 1)|exists (k + 2)]; unfold py_len;
    rewrite ?length_app, ?le_bytes_length; lia.
Qed.

Lemma scalar_text_nonzero (s : pystr) :
  scalar_text s = true -> forallb (fun c => negb (c =? 0)) s = true.
Proof.
  induction s as [|c s IH]; intros Hs; [reflexivity|].
  destruct (scalar_char c s Hs) as [Hc [_ Hr]]. simpl. rewrite IH by exact Hr.
  replace (c =? 0) with false by (symmetry; apply Z.eqb_neq; lia). reflexivity.
Qed.

(** X6.  A UTF-16 FString as Unreal writes it (length [-(k+1)] for [k] code
    units, the text encoded as UTF-16LE, then a NUL unit) is read by
    [_read_string] as the original text, surrogate pairs included, with the
    offset just past the NUL unit. *)
Theorem read_string_utf16 (pre rest : bytes) (s : pystr)
    (Hs : scalar_text s = true) (Hlen : py_len (utf16le_encode_ignore s) < 2 ^ 32 - 2) :
  exists l, _write_i32 (- (py_len (utf16le_encode_ignore s) / 2 + 1)) = Ok l /\
    _read_string (pre ++ l ++ utf16le_encode_ignore s ++ [0; 0] ++ rest) (py_len pre)
      = Ok (s, py_len pre + 4 + py_len (utf16le_encode_ignore s) + 2).
Proof.
  set (enc := utf16le_encode_ignore s) in *.
  destruct (utf16_encode_even s) as [k Hk]. fold enc in Hk.
  pose proof (py_len_nonneg enc).
  rewrite Hk in *. rewrite Z.mul_comm, Z.div_mul by lia.
  exists (le_bytes 4 ((- (k + 1)) mod 2 ^ 32)). split; [apply write_i32_ok; lia|].
  unfold _read_string. rewrite read_i32_at by lia. cbn [bind].
  replace (- (k + 1) =? 0) with false by (symmetry; apply Z.eqb_neq; lia).
  replace (- (k + 1) <? 0) with true by (symmetry; apply Z.ltb_lt; lia).
  rewrite app_assoc.
  replace (py_len pre + 4) with (py_len (pre ++ le_bytes 4 ((- (k + 1)) mod 2 ^ 32)))
    by (rewrite py_len_app; unfold py_len at 2; rewrite le_bytes_length; reflexivity).
  rewrite py_slice_at by lia.
  replace (Z.to_nat (- - (k + 1) * 2)) with (length (enc ++ [0; 0]))
    by (rewrite length_app; unfold py_len in Hk; simpl; lia).
  rewrite app_assoc, firstn_len_app.
  unfold enc. rewrite utf16_decode_encode by exact Hs. cbn [utf16le_decode_ignore].
  replace (0 + 256 * 0) with 0 by reflexivity. cbn.
  rewrite rstrip_nul_app by (apply scalar_text_nonzero; exact Hs).
  f_equal. f_equal. lia.
Qed.

Lemma read_string_utf16_witness :
  exists l, _write_i32 (- (py_len (utf16le_encode_ignore [233; 128512]) / 2 + 1)) = Ok l /\
    _read_string ([] ++ l ++ utf16le_encode_ignore [233; 128512] ++ [0; 0] ++ []) (py_len (@nil Z))
      = Ok ([233; 128512], py_len (@nil Z) + 4 + py_len (utf16le_encode_ignore [233; 128512]) + 2).
Proof.
  apply (read_string_utf16 [] [] [233; 128512]); vm_compute; reflexivity.
Defined.

(** ** GUID codec: the bytes side *)

(** X7.  [_write_guid] always appends exactly 16 bytes; a string that does
    not split into five dash-separated groups gives 16 zero bytes. *)
Theorem write_guid_16_bytes (g : pystr) :
  length (_write_guid g) = 16%nat /\
  ((length (split_on dash g) =? 5)%nat = false -> _write_guid g = zeros16).
Proof.
  unfold _write_guid.
  destruct (split_on dash g) as [|p1 [|p2 [|p3 [|p4 [|p5 [|p6 r]]]]]];
    try (split; [reflexivity|intros; reflexivity]).
  split; [|discriminate].
  destruct (fromhex p1) as [b1|]; [|reflexivity]; cbn [bind].
  destruct (fromhex p2) as [b2|]; [|reflexivity]; cbn [bind].
  destruct (fromhex p3) as [b3|]; [|reflexivity]; cbn [bind].
  destruct (fromhex p4) as [b4|]; [|reflexivity]; cbn [bind].
  destruct (fromhex p5) as [b5|]; [|reflexivity]; cbn [bind].
  destruct ((length b1 =? 4)%nat) eqn:E1; [|reflexivity].
  destruct ((length b2 =? 2)%nat) eqn:E2; [|reflexivity].
  destruct ((length b3 =? 2)%nat) eqn:E3; [|reflexivity].
  destruct ((length b4 =? 2)%nat) eqn:E4; [|reflexivity].
  destruct ((length b5 =? 6)%nat) eqn:E5; [|reflexivity].
  apply Nat.eqb_eq in E1, E2, E3, E4, E5. cbn.
  rewrite !length_app, !length_rev. lia.
Qed.

Lemma write_guid_16_bytes_witness :
  length (_write_guid (lit "not-a-guid")) = 16%nat /\
  ((length (split_on dash (lit "not-a-guid")) =? 5)%nat = false ->
   _write_guid (lit "not-a-guid") = zeros16).
Proof. apply (write_guid_16_bytes (lit "not-a-guid")). Defined.

Lemma hex_val_digit (d : Z) :
  0 <= d < 16 -> hex_val (hex_digit d) = Some d /\ is_space (hex_digit d) = false /\
                 is_lower_hex (hex_digit d) = true /\ hex_digit d <> dash.
Proof.
  intros Hd. unfold hex_digit, hex_val, is_space, is_lower_hex, in_rng, dash.
  destruct (Z.ltb_spec d 10);
  repeat match goal with
         | |- context [?a <=? ?b] => destruct (Z.leb_spec a b)
         | |- context [?a =? ?b] => destruct (Z.eqb_spec a b)
         end; cbn [andb orb negb]; try lia;
  repeat split; try (f_equal; lia); lia.
Qed.

Lemma byte_digits (b : Z) : 0 <= b < 256 -> 0 <= b / 16 < 16 /\ 0 <= b mod 16 < 16.
Proof.
  intros Hb. split; [split; [apply Z.div_pos|apply Z.div_lt_upper_bound]; lia|].
  apply Z.mod_pos_bound. lia.
Qed.

Lemma byte_list_cons (b : Z) (l : bytes) :
  byte_list (b :: l) = true -> 0 <= b < 256 /\ byte_list l = true.
Proof.
  unfold byte_list. simpl. rewrite !andb_true_iff, Z.leb_le, Z.ltb_lt. tauto.
Qed.

Lemma fromhex_hex (l : bytes) : byte_list l = true -> fromhex (hex l) = Ok l.
Proof.
  induction l as [|b l IH]; intros Hl; [reflexivity|].
  destruct (byte_list_cons b l Hl) as [Hb Hr].
  destruct (byte_digits b Hb) as [Hq Hm].
  destruct (hex_val_digit _ Hq) as [Vq [Sq _]]. destruct (hex_val_digit _ Hm) as [Vm _].
  change (hex (b :: l)) with (hex_digit (b / 16) :: hex_digit (b mod 16) :: hex l).
  cbn [fromhex]. rewrite Sq, Vq, Vm, IH by exact Hr. cbn [bind].
  pose proof (Z.div_mod b 16). do 2 f_equal. lia.
Qed.

Lemma hex_no_dash (l : bytes) :
  byte_list l = true ->
  forallb (fun c => negb (c =? dash)) (hex l) = true /\ forallb is_lower_hex (hex l) = true.
Proof.
  induction l as [|b l IH]; intros Hl; [split; reflexivity|].
  destruct (byte_list_cons b l Hl) as [Hb Hr]. destruct (IH Hr) as [H1 H2].
  destruct (byte_digits b Hb) as [Hq Hm].
  destruct (hex_val_digit _ Hq) as [_ [_ [Lq Dq]]]. destruct (hex_val_digit _ Hm) as [_ [_ [Lm Dm]]].
  change (hex (b :: l)) with (hex_digit (b / 16) :: hex_digit (b mod 16) :: hex l).
  simpl forallb. rewrite H1, H2, Lq, Lm.
  apply Z.eqb_neq in Dq. apply Z.eqb_neq in Dm. rewrite Dq, Dm. split; reflexivity.
Qed.

Lemma split_on_no_sep (sep : Z) (p : pystr) :
  forallb (fun c => negb (c =? sep)) p = true ->
  split_on sep p = [p] /\ forall r, split_on sep (p ++ sep :: r) = p :: split_on sep r.
Proof.
  induction p as [|c p IH]; intros Hp.
  - split; [reflexivity|]. intros r. simpl. rewrite Z.eqb_refl. reflexivity.
  - simpl in Hp. apply andb_true_iff in Hp as [Hc Hp]. apply negb_true_iff in Hc.
    destruct (IH Hp) as [IH1 IH2]. split.
    + simpl. rewrite Hc, IH1. reflexivity.
    + intros r. simpl. rewrite Hc, IH2. reflexivity.
Qed.

Lemma hex_length (l : bytes) : length (hex l) = (2 * length l)%nat.
Proof. induction l as [|b l IH]; [reflexivity|]. simpl. rewrite IH. lia. Qed.

(** X8.  Any 16 bytes read by [_read_guid] give a canonical GUID string, and
    [_write_guid] turns that string back into the same 16 bytes. *)
Theorem guid_bytes_round_trip (pre b rest : bytes)
    (Hlen : length b = 16%nat) (Hb : byte_list b = true) :
  canonical_guid (fst (_read_guid (pre ++ b ++ rest) (py_len pre))) = true /\
  _write_guid (fst (_read_guid (pre ++ b ++ rest) (py_len pre))) = b.
Proof.
  unfold _read_guid. rewrite py_slice_at by lia.
  replace (Z.to_nat 16) with (length b) by (rewrite Hlen; reflexivity).
  rewrite firstn_len_app, Hlen. cbn [negb Nat.eqb fst].
  destruct b as [|x0 [|x1 [|x2 [|x3 [|x4 [|x5 [|x6 [|x7 [|x8 [|x9 [|x10 [|x11 [|x12
    [|x13 [|x14 [|x15 [|]]]]]]]]]]]]]]]]]; try discriminate.
  assert (Hr : render_guid [x0; x1; x2; x3; x4; x5; x6; x7; x8; x9; x10; x11; x12; x13; x14; x15] =
    hex [x3; x2; x1; x0] ++ dash :: hex [x5; x4] ++ dash :: hex [x7; x6] ++ dash ::
    hex [x8; x9] ++ dash :: hex [x10; x11; x12; x13; x14; x15]) by reflexivity.
  rewrite Hr.
  assert (B : forall l, incl l [x0; x1; x2; x3; x4; x5; x6; x7; x8; x9; x10; x11; x12; x13; x14; x15] ->
                byte_list l = true).
  { intros l Hi. unfold byte_list in *. rewrite forallb_forall in *. intros y Hy. apply Hb, Hi, Hy. }
  assert (B1 : byte_list [x3; x2; x1; x0] = true) by (apply B; intros y Hy; simpl in *; tauto).
  assert (B2 : byte_list [x5; x4] = true) by (apply B; intros y Hy; simpl in *; tauto).
  assert (B3 : byte_list [x7; x6] = true) by (apply B; intros y Hy; simpl in *; tauto).
  assert (B4 : byte_list [x8; x9] = true) by (apply B; intros y Hy; simpl in *; tauto).
  assert (B5 : byte_list [x10; x11; x12; x13; x14; x15] = true)
    by (apply B; intros y Hy; simpl in *; tauto).
  destruct (hex_no_dash _ B1) as [N1 L1]. destruct (hex_no_dash _ B2) as [N2 L2].
  destruct (hex_no_dash _ B3) as [N3 L3]. destruct (hex_no_dash _ B4) as [N4 L4].
  destruct (hex_no_dash _ B5) as [N5 L5].
  assert (Hs : split_on dash (hex [x3; x2; x1; x0] ++ dash :: hex [x5; x4] ++ dash :: hex [x7; x6]
      ++ dash :: hex [x8; x9] ++ dash :: hex [x10; x11; x12; x13; x14; x15]) =
      [hex [x3; x2; x1; x0]; hex [x5; x4]; hex [x7; x6]; hex [x8; x9];
       hex [x10; x11; x12; x13; x14; x15]]).
  { rewrite (proj2 (split_on_no_sep _ _ N1)), (proj2 (split_on_no_sep _ _ N2)),
      (proj2 (split_on_no_sep _ _ N3)), (proj2 (split_on_no_sep _ _ N4)),
      (proj1 (split_on_no_sep _ _ N5)). reflexivity. }
  split.
  - unfold canonical_guid. rewrite Hs, !hex_length. cbn [length Nat.mul Nat.add Nat.eqb andb].
    rewrite !forallb_app, L1, L2, L3, L4, L5. reflexivity.
  - unfold _write_guid. rewrite Hs, !fromhex_hex by assumption. reflexivity.
Qed.

Lemma guid_bytes_round_trip_witness :
  canonical_guid (fst (_read_guid ([] ++ sample_guid_bytes ++ []) (py_len (@nil Z)))) = true /\
  _write_guid (fst (_read_guid ([] ++ sample_guid_bytes ++ []) (py_len (@nil Z)))) = sample_guid_bytes.
Proof. apply (guid_bytes_round_trip [] sample_guid_bytes []); vm_compute; reflexivity. Defined.



(** ** Cursor lemmas: reading back what the writers appended *)

Lemma reads_at_init (pre b rest : bytes) : reads_at (pre ++ b ++ rest) (py_len pre) b.
Proof. exists pre, rest. split; reflexivity. Qed.

Lemma reads_at_app (d : bytes) (o : Z) (b1 b2 : bytes) :
  reads_at d o (b1 ++ b2) -> reads_at d o b1 /\ reads_at d (o + py_len b1) b2.
Proof.
  intros [pre [rest [-> ->]]]. split.
  - exists pre, (b2 ++ rest). split; [rewrite <- app_assoc; reflexivity|reflexivity].
  - exists (pre ++ b1), rest. split; [rewrite <- !app_assoc; reflexivity|symmetry; apply py_len_app].
Qed.

Lemma py_len_le_bytes (k : nat) (v : Z) : py_len (le_bytes k v) = Z.of_nat k.
Proof. unfold py_len. rewrite le_bytes_length. reflexivity. Qed.

Lemma py_len_write_u32 (v : Z) : py_len (_write_u32 v) = 4.
Proof. apply py_len_le_bytes. Qed.

Lemma py_len_write_u16 (v : Z) : py_len (_write_u16 v) = 2.
Proof. apply py_len_le_bytes. Qed.

Lemma ra_unpack (k : nat) (d : bytes) (o v : Z) :
  reads_at d o (le_bytes k v) -> unpack_raw (Z.of_nat k) d o = Ok (le_bytes k v).
Proof. intros [pre [rest [-> ->]]]. apply unpack_le_at. Qed.

Lemma ra_u32 (d : bytes) (o v : Z) :
  reads_at d o (_write_u32 v) -> _read_u32 d o = Ok (v mod 2 ^ 32, o + 4).
Proof.
  intros H. unfold _read_u32. unfold _write_u32 in H.
  pose proof (ra_unpack 4 _ _ _ H) as U. change (Z.of_nat 4) with 4 in U. rewrite U. cbn [bind].
  rewrite le_val_le_bytes, land_mask by lia. rewrite Z.mod_mod by lia. reflexivity.
Qed.

Lemma ra_u16 (d : bytes) (o v : Z) :
  reads_at d o (_write_u16 v) -> _read_u16 d o = Ok (v mod 2 ^ 16, o + 2).
Proof.
  intros H. unfold _read_u16. unfold _write_u16 in H.
  pose proof (ra_unpack 2 _ _ _ H) as U. change (Z.of_nat 2) with 2 in U. rewrite U. cbn [bind].
  rewrite le_val_le_bytes, land_mask by lia. rewrite Z.mod_mod by lia. reflexivity.
Qed.

Lemma ra_i32 (d : bytes) (o v : Z) :
  - 2 ^ 31 <= v < 2 ^ 31 -> reads_at d o (le_bytes 4 (v mod 2 ^ 32)) ->
  _read_i32 d o = Ok (v, o + 4).
Proof. intros Hv [pre [rest [-> ->]]]. apply read_i32_at. exact Hv. Qed.

Lemma ra_index (d : bytes) (o x : Z) : reads_at d o [x] -> py_index d o = Ok x.
Proof.
  intros [pre [rest [-> ->]]]. unfold py_index. rewrite py_len_app.
  pose proof (py_len_nonneg pre).
  replace (py_len pre <? 0) with false by (symmetry; apply Z.ltb_ge; lia).
  replace (0 <=? py_len pre) with true by (symmetry; apply Z.leb_le; lia).
  assert (E : py_len ([x] ++ rest) = 1 + py_len rest)
    by (unfold py_len; cbn [app length]; lia).
  pose proof (py_len_nonneg rest).
  replace (py_len pre <? py_len pre + py_len ([x] ++ rest)) with true
    by (symmetry; apply Z.ltb_lt; lia).
  cbn [andb]. rewrite py_len_to_nat, app_nth2, Nat.sub_diag by lia. reflexivity.
Qed.

Lemma ra_skip_null (d : bytes) (o : Z) : reads_at d o [0] -> skip_null d o = Ok (o + 1).
Proof. intros H. unfold skip_null. rewrite (ra_index _ _ _ H). reflexivity. Qed.

Lemma ra_slice (d : bytes) (o : Z) (b : bytes) :
  reads_at d o b -> py_slice d o (o + py_len b) = b.
Proof.
  intros [pre [rest [-> ->]]]. rewrite py_slice_at by apply py_len_nonneg.
  rewrite py_len_to_nat, firstn_len_app. reflexivity.
Qed.

Lemma fstring_ok_split (s : pystr) :
  fstring_ok s = true -> ascii_text s = true /\ py_len s < 2 ^ 31 - 1.
Proof. unfold fstring_ok. rewrite andb_true_iff, Z.ltb_lt. tauto. Qed.

Lemma fstring_write (s : pystr) : fstring_ok s = true -> exists b, _write_string s = Ok b.
Proof.
  intros Hs. apply fstring_ok_split in Hs as [Ha Hl].
  destruct (string_ascii_at [] [] s Ha Hl) as [b [Hw _]]. eauto.
Qed.

Lemma ra_string (d : bytes) (o : Z) (s b : pystr) :
  fstring_ok s = true -> _write_string s = Ok b -> reads_at d o b ->
  _read_string d o = Ok (s, o + py_len b).
Proof.
  intros Hs Hw [pre [rest [-> ->]]]. apply fstring_ok_split in Hs as [Ha Hl].
  destruct (string_ascii_at pre rest s Ha Hl) as [b' [Hw' [_ Hr]]].
  rewrite Hw in Hw'. injection Hw' as <-. exact Hr.
Qed.

Lemma write_string_length (s b : pystr) :
  fstring_ok s = true -> _write_string s = Ok b ->
  py_len b = 4 + match s with [] => 0 | _ => py_len s + 1 end.
Proof.
  intros Hs Hw. apply fstring_ok_split in Hs as [Ha Hl].
  destruct (string_ascii_at [] [] s Ha Hl) as [b' [Hw' [Hlen _]]].
  rewrite Hw in Hw'. injection Hw' as <-. exact Hlen.
Qed.

(** Split a conjunction of boolean tests into hypotheses on [Z]. *)
Ltac destr_bool :=
  repeat match goal with
  | H : (_ && _) = true |- _ => apply andb_true_iff in H as [? ?]
  | H : (_ <=? _) = true |- _ => apply Z.leb_le in H
  | H : (_ <? _) = true |- _ => apply Z.ltb_lt in H
  | H : (_ =? _) = true |- _ => apply Z.eqb_eq in H
  | H : negb _ = true |- _ => apply negb_true_iff in H
  end.

Lemma u32_ok_intro (v : Z) : 0 <= v < 2 ^ 32 -> u32_ok v = true.
Proof. intros Hv. unfold u32_ok. apply andb_true_iff. rewrite Z.leb_le, Z.ltb_lt. lia. Qed.

Lemma create_dispatch rp (f : nat) (n : pystr) (sz tg : Z) (d : bytes) (o : Z) :
  create_property rp f n (lit "BoolProperty") sz tg d o = BoolProperty_from_bytes n sz tg d o /\
  create_property rp f n (lit "DoubleProperty") sz tg d o = DoubleProperty_from_bytes n sz tg d o /\
  create_property rp f n (lit "FloatProperty") sz tg d o = FloatProperty_from_bytes n sz tg d o /\
  create_property rp f n (lit "Int64Property") sz tg d o = Int64Property_from_bytes n sz tg d o /\
  create_property rp f n (lit "IntProperty") sz tg d o = IntProperty_from_bytes n sz tg d o /\
  create_property rp f n (lit "MapProperty") sz tg d o = MapProperty_from_bytes n sz tg d o /\
  create_property rp f n (lit "NameProperty") sz tg d o = NameProperty_from_bytes n sz tg d o /\
  create_property rp f n (lit "ObjectProperty") sz tg d o = ObjectProperty_from_bytes n sz tg d o /\
  create_property rp f n (lit "StrProperty") sz tg d o = StrProperty_from_bytes n sz tg d o /\
  create_property rp f n (lit "TextProperty") sz tg d o = TextProperty_from_bytes n sz tg d o /\
  create_property rp f n (lit "UInt64Property") sz tg d o = UInt64Property_from_bytes n sz tg d o.
Proof. repeat (split; [reflexivity|]); reflexivity. Qed.

(** The record head: name, class name, size and tag. *)
Lemma property_head (f : nat) (d : bytes) (o : Z) (n c : pystr) (sz tg : Z) (bn bc body : bytes) :
  name_ok n = true -> fstring_ok c = true -> u32_ok sz = true -> u32_ok tg = true ->
  _write_string n = Ok bn -> _write_string c = Ok bc ->
  reads_at d o (bn ++ bc ++ _write_u32 sz ++ _write_u32 tg ++ body) ->
  reads_at d (o + py_len bn + py_len bc + 4 + 4) body /\
  _read_property (S f) d o =
    ('(p, o') <- create_property (_read_property f) f n c sz tg d
                   (o + py_len bn + py_len bc + 4 + 4) ;; Ok (Some p, o')).
Proof.
  intros Hn Hc Hsz Htg Wn Wc H.
  apply reads_at_app in H as [Hn' H]. apply reads_at_app in H as [Hc' H].
  apply reads_at_app in H as [Hs' H]. apply reads_at_app in H as [Ht' H].
  rewrite !py_len_write_u32 in *.
  split; [exact H|].
  unfold name_ok in Hn. unfold u32_ok in Hsz, Htg.
  apply andb_true_iff in Hn as [Hn Hnone]. apply andb_true_iff in Hn as [Hn Hempty].
  apply negb_true_iff in Hnone, Hempty. destr_bool.
  cbn [_read_property]. rewrite (ra_string _ _ _ _ Hn Wn Hn'). cbn [bind].
  rewrite Hnone, Hempty. cbn [orb].
  rewrite (ra_string _ _ _ _ Hc Wc Hc'). cbn [bind].
  rewrite (ra_u32 _ _ _ Hs'). cbn [bind]. rewrite (ra_u32 _ _ _ Ht'). cbn [bind].
  rewrite (Z.mod_small sz), (Z.mod_small tg) by lia. reflexivity.
Qed.

Lemma i64_signed (v : Z) : - 2 ^ 63 <= v < 2 ^ 63 -> to_signed 64 (v mod 2 ^ 64) = v.
Proof.
  intros Hv. unfold to_signed. replace (64 - 1) with 63 by lia.
  destruct (Z.le_gt_cases 0 v).
  - rewrite Z.mod_small by lia. replace (v <? 2 ^ 63) with true by (symmetry; apply Z.ltb_lt; lia).
    reflexivity.
  - replace (v mod 2 ^ 64) with (v + 2 ^ 64)
      by (apply Z.mod_unique with (-1); lia).
    replace (v + 2 ^ 64 <? 2 ^ 63) with false by (symmetry; apply Z.ltb_ge; lia). lia.
Qed.

Lemma ra_raw (k : nat) (d : bytes) (o v : Z) :
  reads_at d o (le_bytes k v) -> 0 <= v < 2 ^ (8 * Z.of_nat k) ->
  bind (unpack_raw (Z.of_nat k) d o) (fun bs => Ok (le_val bs)) = Ok v.
Proof.
  intros H Hv. rewrite (ra_unpack k _ _ _ H). cbn [bind].
  rewrite le_val_le_bytes, Z.mod_small by lia. reflexivity.
Qed.

Lemma class_name_ok (p : property) : fstring_ok (class_name p) = true.
Proof. destruct p; vm_compute; reflexivity. Qed.

Lemma py_len_cons {A} (x : A) (l : list A) : py_len (x :: l) = 1 + py_len l.
Proof. unfold py_len. cbn [length]. lia. Qed.

(** A record reads back once its body does. *)
Lemma record_round_trip_gen (pre rest : bytes) (p : property) (fuel : nat) (bn bc body : bytes) :
  name_ok (prop_name p) = true -> u32_ok (prop_size p) = true -> u32_ok (prop_tag p) = true ->
  _write_string (prop_name p) = Ok bn -> _write_string (class_name p) = Ok bc ->
  _write_property p = Ok (bn ++ bc ++ _write_u32 (prop_size p) ++ _write_u32 (prop_tag p) ++ body) ->
  (forall d o, reads_at d o body ->
     create_property (_read_property fuel) fuel (prop_name p) (class_name p) (prop_size p)
       (prop_tag p) d o = Ok (p, o + py_len body)) ->
  exists b, _write_property p = Ok b /\
    _read_property (S fuel) (pre ++ b ++ rest) (py_len pre) = Ok (Some p, py_len pre + py_len b).
Proof.
  intros Hn Hs Ht Wn Wc Wp Hbody. eexists. split; [exact Wp|].
  destruct (property_head fuel _ _ _ _ _ _ _ _ body Hn (class_name_ok p) Hs Ht Wn Wc
              (reads_at_init pre _ rest)) as [Hra ->].
  rewrite (Hbody _ _ Hra). cbn [bind]. rewrite !py_len_app, !py_len_write_u32.
  f_equal. f_equal. lia.
Qed.

Lemma scalar_record_rt (pre rest : bytes) (p : property) (fuel : nat)
    (Hp : scalar_record_ok p = true) :
  exists b, _write_property p = Ok b /\
    _read_property (S fuel) (pre ++ b ++ rest) (py_len pre) = Ok (Some p, py_len pre + py_len b).
Proof.
  unfold scalar_record_ok in Hp.
  apply andb_true_iff in Hp as [Hp Hbody]. apply andb_true_iff in Hp as [Hn Ht].
  assert (Hn' := Hn). unfold name_ok in Hn'. apply andb_true_iff in Hn' as [Hn' _].
  apply andb_true_iff in Hn' as [Hn' _].
  destruct (fstring_write _ Hn') as [bn Wn].
  destruct (fstring_write _ (class_name_ok p)) as [bc Wc].
  destruct p as [n t s inner asz av|n t s v|n t s g v|n t s v|n t s v|n t s v
                |n t s v it|n t s k vt ms raw|n t s v|n t s v|n t s v|n t s ty g fs|n t s v|n t s v];
    try discriminate Hbody; unfold u32_ok, i32_ok in Hbody.
  - (* Bool *)
    destr_bool. subst s.
    apply (record_round_trip_gen pre rest _ fuel bn bc [if v then 1 else 0; 0] Hn);
      [reflexivity|assumption|assumption|assumption|
       cbn [_write_property]; rewrite Wn, Wc; cbn [bind]; rewrite <- ?app_assoc; reflexivity|].
    intros d o H. cbn [class_name prop_name prop_size prop_tag].
    rewrite (proj1 (create_dispatch _ _ _ _ _ _ _)).
    change [if v then 1 else 0; 0] with ([if v then 1 else 0] ++ [0]) in H.
    apply reads_at_app in H as [R1 R2].
    unfold BoolProperty_from_bytes. cbn [assert_ Z.eqb bind].
    rewrite (ra_index _ _ _ R1). cbn [bind].
    change (py_len [if v then 1 else 0]) with 1 in R2. rewrite (ra_skip_null _ _ R2). cbn [bind].
    f_equal. f_equal; [destruct v; cbn [bind]; rewrite <- ?app_assoc; reflexivity|]. cbn. lia.
  - (* Double *)
    destr_bool. subst s.
    apply (record_round_trip_gen pre rest _ fuel bn bc (le_bytes 8 v) Hn);
      [reflexivity|assumption|assumption|assumption|
       cbn [_write_property]; rewrite Wn, Wc; cbn [bind]; rewrite <- ?app_assoc; reflexivity|].
    intros d o H. cbn [class_name prop_name prop_size prop_tag].
    rewrite (proj1 (proj2 (create_dispatch _ _ _ _ _ _ _))).
    unfold DoubleProperty_from_bytes, unpack_f64. cbn [assert_ Z.eqb bind].
    change 8 with (Z.of_nat 8) at 1. rewrite (ra_raw 8 _ _ _ H) by (cbn; lia). cbn [bind].
    rewrite py_len_le_bytes. reflexivity.
  - (* Float *)
    destr_bool. subst s.
    apply (record_round_trip_gen pre rest _ fuel bn bc (le_bytes 4 v) Hn);
      [reflexivity|assumption|assumption|assumption|
       cbn [_write_property]; rewrite Wn, Wc; cbn [bind]; rewrite <- ?app_assoc; reflexivity|].
    intros d o H. cbn [class_name prop_name prop_size prop_tag].
    rewrite (proj1 (proj2 (proj2 (create_dispatch _ _ _ _ _ _ _)))).
    unfold FloatProperty_from_bytes, unpack_f32. cbn [assert_ Z.eqb bind].
    change 4 with (Z.of_nat 4) at 1. rewrite (ra_raw 4 _ _ _ H) by (cbn; lia). cbn [bind].
    rewrite py_len_le_bytes. reflexivity.
  - (* Int64 *)
    destr_bool. subst s.
    apply (record_round_trip_gen pre rest _ fuel bn bc (le_bytes 8 (v mod 2 ^ 64)) Hn);
      [reflexivity|assumption|assumption|assumption|
       cbn [_write_property]; rewrite Wn, Wc; cbn [bind]; unfold pack_q;
       replace ((- 2 ^ 63 <=? v) && (v <? 2 ^ 63)) with true
         by (symmetry; apply andb_true_iff; rewrite Z.leb_le, Z.ltb_lt; lia);
       cbn [bind]; rewrite <- ?app_assoc; reflexivity|].
    intros d o H. cbn [class_name prop_name prop_size prop_tag].
    rewrite (proj1 (proj2 (proj2 (proj2 (create_dispatch _ _ _ _ _ _ _))))).
    unfold Int64Property_from_bytes, unpack_i64. cbn [assert_ Z.eqb bind].
    pose proof (ra_unpack 8 _ _ _ H) as U. change (Z.of_nat 8) with 8 in U. rewrite U.
    cbn [bind]. rewrite le_val_le_bytes, Z.mod_mod by lia.
    change (8 * Z.of_nat 8) with 64. rewrite i64_signed by lia.
    rewrite py_len_le_bytes. reflexivity.
  - (* Int *)
    destr_bool. subst s.
    apply (record_round_trip_gen pre rest _ fuel bn bc (le_bytes 4 (v mod 2 ^ 32) ++ [it]) Hn);
      [reflexivity|assumption|assumption|assumption|
       cbn [_write_property]; rewrite Wn, Wc; cbn [bind]; unfold _write_i32;
       replace ((- 2 ^ 31 <=? v) && (v <? 2 ^ 31)) with true
         by (symmetry; apply andb_true_iff; rewrite Z.leb_le, Z.ltb_lt; lia);
       cbn [bind]; cbn [bind]; rewrite <- ?app_assoc; reflexivity|].
    intros d o H. cbn [class_name prop_name prop_size prop_tag].
    rewrite (proj1 (proj2 (proj2 (proj2 (proj2 (create_dispatch _ _ _ _ _ _ _)))))).
    apply reads_at_app in H as [R1 R2]. rewrite py_len_le_bytes in R2.
    change (Z.of_nat 4) with 4 in R2.
    unfold IntProperty_from_bytes. cbn [assert_ Z.eqb bind].
    assert (Hv : - 2 ^ 31 <= v < 2 ^ 31) by lia.
    rewrite (ra_i32 _ _ _ Hv R1). cbn [bind].
    rewrite (ra_index _ _ _ R2). cbn [bind].
    change 255 with (2 ^ 8 - 1). rewrite land_mask by lia. rewrite Z.mod_small by lia.
    rewrite py_len_app, py_len_le_bytes. simpl. f_equal. f_equal. lia.
  - (* Map *)
    repeat rewrite andb_true_iff in Hbody.
    destruct Hbody as [[[[Hk' Hv'] [Hm1 Hm2]] [Hs1 Hs2]] Hs3]. destr_bool.
    destruct (fstring_write _ Hk') as [bk Wk]. destruct (fstring_write _ Hv') as [bv Wv].
    apply (record_round_trip_gen pre rest _ fuel bn bc
             (bk ++ bv ++ [0] ++ _write_u32 ms ++ raw ++ [0]) Hn);
      [apply u32_ok_intro; cbn [prop_size]; lia|assumption|assumption|assumption|
       cbn [_write_property]; rewrite Wn, Wc; cbn [bind]; rewrite Wk, Wv; cbn [bind]; rewrite <- ?app_assoc; reflexivity|].
    intros d o H. cbn [class_name prop_name prop_size prop_tag].
    rewrite (proj1 (proj2 (proj2 (proj2 (proj2 (proj2 (create_dispatch _ _ _ _ _ _ _))))))).
    apply reads_at_app in H as [R1 H]. apply reads_at_app in H as [R2 H].
    apply reads_at_app in H as [R3 H]. apply reads_at_app in H as [R4 H].
    apply reads_at_app in H as [R5 R6].
    unfold MapProperty_from_bytes.
    rewrite (ra_string _ _ _ _ Hk' Wk R1). cbn [bind].
    rewrite (ra_string _ _ _ _ Hv' Wv R2). cbn [bind].
    rewrite (ra_skip_null _ _ R3). cbn [bind].
    change (py_len [0]) with 1 in *. rewrite py_len_write_u32 in *.
    rewrite (ra_u32 _ _ _ R4). cbn [bind]. rewrite Z.mod_small by lia.
    replace (o + py_len bk + py_len bv + 1 + 4 + s - 5)
      with (o + py_len bk + py_len bv + 1 + 4 + py_len raw) by lia.
    rewrite (ra_slice _ _ _ R5).
    replace (o + py_len bk + py_len bv + 1 + 4 + (s - 5))
      with (o + py_len bk + py_len bv + 1 + 4 + py_len raw) by lia.
    rewrite (ra_skip_null _ _ R6). cbn [bind].
    rewrite !py_len_app, py_len_write_u32. change (py_len [0]) with 1. f_equal. f_equal. lia.
  - (* Name *)
    apply andb_true_iff in Hbody as [Hfv Hs]. destr_bool. destruct (fstring_write _ Hfv) as [bv Wv].
    apply (record_round_trip_gen pre rest _ fuel bn bc ([0] ++ bv) Hn);
      [apply u32_ok_intro; cbn [prop_size]; apply fstring_ok_split in Hfv; pose proof (py_len_nonneg v); lia
      |assumption|assumption|assumption|
       cbn [_write_property]; rewrite Wn, Wc; cbn [bind]; rewrite Wv; cbn [bind]; rewrite <- ?app_assoc; reflexivity|].
    intros d o H. cbn [class_name prop_name prop_size prop_tag].
    rewrite (proj1 (proj2 (proj2 (proj2 (proj2 (proj2 (proj2 (create_dispatch _ _ _ _ _ _ _)))))))).
    apply reads_at_app in H as [R1 R2].
    unfold NameProperty_from_bytes.
    rewrite (ra_skip_null _ _ R1). cbn [bind]. change (py_len [0]) with 1 in R2.
    rewrite (ra_string _ _ _ _ Hfv Wv R2). cbn [bind].
    replace (py_len v + 4 + 1 =? s) with true by (symmetry; apply Z.eqb_eq; lia). cbn [assert_ bind].
    rewrite py_len_app. change (py_len [0]) with 1. f_equal. f_equal. lia.
  - (* Object *)
    apply andb_true_iff in Hbody as [Hfv Hs]. destr_bool. destruct (fstring_write _ Hfv) as [bv Wv].
    apply (record_round_trip_gen pre rest _ fuel bn bc ([0] ++ bv) Hn);
      [apply u32_ok_intro; cbn [prop_size]; apply fstring_ok_split in Hfv; pose proof (py_len_nonneg v); lia
      |assumption|assumption|assumption|
       cbn [_write_property]; rewrite Wn, Wc; cbn [bind]; rewrite Wv; cbn [bind]; rewrite <- ?app_assoc; reflexivity|].
    intros d o H. cbn [class_name prop_name prop_size prop_tag].
    rewrite (proj1 (proj2 (proj2 (proj2 (proj2 (proj2 (proj2 (proj2 (create_dispatch _ _ _ _ _ _ _))))))))).
    apply reads_at_app in H as [R1 R2].
    unfold ObjectProperty_from_bytes.
    rewrite (ra_skip_null _ _ R1). cbn [bind]. change (py_len [0]) with 1 in R2.
    rewrite (ra_string _ _ _ _ Hfv Wv R2). cbn [bind].
    replace (py_len v + 4 + 1 =? s) with true by (symmetry; apply Z.eqb_eq; lia). cbn [assert_ bind].
    rewrite py_len_app. change (py_len [0]) with 1. f_equal. f_equal. lia.
  - (* Str *)
    apply andb_true_iff in Hbody as [Hfv Hs]. destr_bool. destruct (fstring_write _ Hfv) as [bv Wv].
    apply (record_round_trip_gen pre rest _ fuel bn bc ([0] ++ bv) Hn);
      [apply u32_ok_intro; cbn [prop_size]; apply fstring_ok_split in Hfv; pose proof (py_len_nonneg v);
       destruct v; lia
      |assumption|assumption|assumption|
       cbn [_write_property]; rewrite Wn, Wc; cbn [bind]; rewrite Wv; cbn [bind]; rewrite <- ?app_assoc; reflexivity|].
    intros d o H. cbn [class_name prop_name prop_size prop_tag].
    rewrite (proj1 (proj2 (proj2 (proj2 (proj2 (proj2 (proj2 (proj2 (proj2 (create_dispatch _ _ _ _ _ _ _)))))))))).
    apply reads_at_app in H as [R1 R2].
    unfold StrProperty_from_bytes.
    rewrite (ra_skip_null _ _ R1). cbn [bind]. change (py_len [0]) with 1 in R2.
    rewrite (ra_string _ _ _ _ Hfv Wv R2). cbn [bind].
    replace (s =? py_len v + 4 + match v with [] => 0 | _ => 1 end) with true
      by (symmetry; apply Z.eqb_eq; lia). cbn [assert_ bind].
    rewrite py_len_app. change (py_len [0]) with 1. f_equal. f_equal. lia.
  - (* Text *)
    destr_bool.
    apply (record_round_trip_gen pre rest _ fuel bn bc (v ++ [0]) Hn);
      [apply u32_ok_intro; cbn [prop_size]; lia|assumption|assumption|assumption|
       cbn [_write_property]; rewrite Wn, Wc; cbn [bind]; rewrite <- ?app_assoc; reflexivity|].
    intros d o Hra. cbn [class_name prop_name prop_size prop_tag].
    rewrite (proj1 (proj2 (proj2 (proj2 (proj2 (proj2 (proj2 (proj2 (proj2 (proj2 (create_dispatch _ _ _ _ _ _ _))))))))))).
    apply reads_at_app in Hra as [R1 _].
    unfold TextProperty_from_bytes. subst s. rewrite (ra_slice _ _ _ R1).
    rewrite py_len_app. change (py_len [0]) with 1. f_equal. f_equal. lia.
  - (* UInt64 *)
    destr_bool. subst s.
    apply (record_round_trip_gen pre rest _ fuel bn bc (le_bytes 8 v) Hn);
      [reflexivity|assumption|assumption|assumption|
       cbn [_write_property]; rewrite Wn, Wc; cbn [bind]; unfold pack_Q;
       replace ((0 <=? v) && (v <? 2 ^ 64)) with true
         by (symmetry; apply andb_true_iff; rewrite Z.leb_le, Z.ltb_lt; lia);
       cbn [bind]; rewrite <- ?app_assoc; reflexivity|].
    intros d o H. cbn [class_name prop_name prop_size prop_tag].
    rewrite (proj2 (proj2 (proj2 (proj2 (proj2 (proj2 (proj2 (proj2 (proj2 (proj2 (create_dispatch _ _ _ _ _ _ _))))))))))).
    unfold UInt64Property_from_bytes, unpack_u64. cbn [assert_ Z.eqb bind].
    change 8 with (Z.of_nat 8) at 1. rewrite (ra_raw 8 _ _ _ H) by (cbn; lia). cbn [bind].
    rewrite py_len_le_bytes. reflexivity.
Qed.

(** X10. Every scalar record ([Bool], [Double], [Float], [Int64], [UInt64],
    [Int], [Str], [Name], [Object], [Text], [Map]) whose fields fit the
    encodings is written by [_write_property] and read back by
    [_read_property] as the same record, ending just after its bytes. *)
Theorem scalar_record_round_trip (pre rest : bytes) (p : property) (fuel : nat)
    (Hp : scalar_record_ok p = true) :
  exists b, _write_property p = Ok b /\
    _read_property (S fuel) (pre ++ b ++ rest) (py_len pre) = Ok (Some p, py_len pre + py_len b).
Proof. exact (scalar_record_rt pre rest p fuel Hp). Qed.

Lemma scalar_record_round_trip_witness :
  scalar_record_ok (IntProperty (lit "Level") 0 4 7 0) = true /\
  exists b, _write_property (IntProperty (lit "Level") 0 4 7 0) = Ok b /\
    _read_property 3 ([] ++ b ++ []) (py_len (@nil Z))
      = Ok (Some (IntProperty (lit "Level") 0 4 7 0), py_len (@nil Z) + py_len b).
Proof.
  split; [vm_compute; reflexivity|].
  apply (scalar_record_round_trip [] [] _ 2). vm_compute. reflexivity.
Defined.

Lemma fstring_none : fstring_ok (lit "None") = true.
Proof. vm_compute. reflexivity. Qed.

Lemma write_none : _write_string (lit "None") = Ok none_bytes.
Proof. vm_compute. reflexivity. Qed.

Lemma ra_none (f : nat) (d : bytes) (o : Z) :
  reads_at d o none_bytes -> _read_property (S f) d o = Ok (None, o + 9).
Proof.
  intros H. cbn [_read_property].
  rewrite (ra_string _ _ _ _ fstring_none write_none H). cbn [bind].
  reflexivity.
Qed.

Lemma write_properties_cons (p : property) (ps : list property) (bp b : bytes) :
  _write_property p = Ok bp -> _write_properties ps = Ok b ->
  _write_properties (p :: ps) = Ok (bp ++ b).
Proof.
  unfold _write_properties. intros Hp Hps. cbn [write_each]. rewrite Hp. cbn [bind].
  destruct (write_each _write_property ps) as [bs|e]; cbn [bind] in *; [|discriminate].
  rewrite write_none in *. cbn [bind] in *. injection Hps as <-.
  rewrite app_assoc. reflexivity.
Qed.

Lemma read_properties_step (f : nat) (d : bytes) (o e : Z) :
  o < e ->
  _read_properties (S f) d o e =
    ('(p, o) <- _read_property f d o ;;
     match p with
     | None => _read_properties f d o e
     | Some p => '(ps, o) <- _read_properties f d o e ;; Ok (p :: ps, o)
     end).
Proof. intros H. cbn [_read_properties]. replace (o <? e) with true by (symmetry; apply Z.ltb_lt; lia). reflexivity. Qed.

Lemma properties_rt (ps : list property) :
  forall (pre rest : bytes) (fuel : nat),
  forallb scalar_record_ok ps = true -> (length ps + 2 <= fuel)%nat ->
  exists b, _write_properties ps = Ok b /\ 9 <= py_len b /\
    _read_properties fuel (pre ++ b ++ rest) (py_len pre) (py_len pre + py_len b)
      = Ok (ps, py_len pre + py_len b).
Proof.
  induction ps as [|p ps IH]; intros pre rest fuel Hps Hfuel.
  - exists none_bytes. split; [unfold _write_properties; cbn [write_each bind];
      rewrite write_none; reflexivity|].
    change (py_len none_bytes) with 9. split; [lia|].
    destruct fuel as [|[|f]]; cbn [length] in Hfuel; [lia|lia|].
    cbn [_read_properties].
    replace (py_len pre <? py_len pre + 9) with true by (symmetry; apply Z.ltb_lt; lia).
    rewrite (ra_none _ _ _ (reads_at_init _ _ _)). cbn [bind].
    destruct f; cbn [_read_properties]; rewrite Z.ltb_irrefl; reflexivity.
  - cbn [forallb] in Hps. apply andb_true_iff in Hps as [Hp Hps].
    destruct fuel as [|[|f]]; cbn [length] in Hfuel; [lia|lia|].
    destruct (scalar_record_rt pre rest p f Hp) as [bp [Wp _]].
    destruct (IH (pre ++ bp) rest (S f) Hps ltac:(lia)) as [b [Wb [Hb Rb]]].
    exists (bp ++ b). split; [apply write_properties_cons; assumption|].
    rewrite py_len_app. pose proof (py_len_nonneg bp). split; [lia|].
    destruct (scalar_record_rt pre (b ++ rest) p f Hp) as [bp' [Wp' Rp]].
    rewrite Wp in Wp'. injection Wp' as <-.
    rewrite read_properties_step by lia.
    rewrite <- app_assoc, Rp. cbn [bind].
    rewrite <- app_assoc in Rb. rewrite py_len_app in Rb.
    replace (py_len pre + (py_len bp + py_len b)) with (py_len pre + py_len bp + py_len b) by lia.
    rewrite Rb. cbn [bind]. reflexivity.
Qed.

(** X11. A list of scalar records that fit their encodings is written by
    [_write_properties] (the records, then the [None] terminator) and read
    back by [_read_properties] over exactly those bytes, given enough fuel:
    the same list, ending at the end offset. *)
Theorem properties_round_trip (pre rest : bytes) (ps : list property) (fuel : nat)
    (Hps : forallb scalar_record_ok ps = true) (Hfuel : (length ps + 2 <= fuel)%nat) :
  exists b, _write_properties ps = Ok b /\
    _read_properties fuel (pre ++ b ++ rest) (py_len pre) (py_len pre + py_len b)
      = Ok (ps, py_len pre + py_len b).
Proof.
  destruct (properties_rt ps pre rest fuel Hps Hfuel) as [b [W [_ R]]]. eauto.
Qed.

Lemma properties_round_trip_witness :
  forallb scalar_record_ok [IntProperty (lit "Level") 0 4 7 0; BoolProperty (lit "Done") 0 0 true]
    = true /\
  exists b, _write_properties [IntProperty (lit "Level") 0 4 7 0; BoolProperty (lit "Done") 0 0 true]
      = Ok b /\
    _read_properties 4 ([] ++ b ++ []) (py_len (@nil Z)) (py_len (@nil Z) + py_len b)
      = Ok ([IntProperty (lit "Level") 0 4 7 0; BoolProperty (lit "Done") 0 0 true],
            py_len (@nil Z) + py_len b).
Proof.
  split; [vm_compute; reflexivity|].
  apply properties_round_trip; [vm_compute; reflexivity|cbn; lia].
Defined.

(** ** Header round trip *)

Lemma le_bytes_split (m n : nat) :
  forall v, le_bytes (m + n) v = le_bytes m v ++ le_bytes n (v / 2 ^ (8 * Z.of_nat m)).
Proof.
  induction m as [|m IH]; intros v.
  - simpl Nat.add. cbn [le_bytes app]. change (8 * Z.of_nat 0) with 0.
    rewrite Z.pow_0_r, Z.div_1_r. reflexivity.
  - simpl Nat.add. cbn [le_bytes app]. rewrite IH. f_equal. f_equal. f_equal.
    rewrite Z.div_div by lia. f_equal.
    rewrite Nat2Z.inj_succ, Z.mul_succ_r, Z.pow_add_r by lia. ring.
Qed.

Lemma ra_unpack_any (d : bytes) (o : Z) (b : bytes) :
  reads_at d o b -> unpack_raw (py_len b) d o = Ok b.
Proof.
  intros [pre [rest [-> ->]]]. rewrite unpack_raw_at by apply py_len_nonneg.
  rewrite py_len_app. pose proof (py_len_nonneg rest).
  replace (py_len b + py_len rest <? py_len b) with false by (symmetry; apply Z.ltb_ge; lia).
  rewrite py_len_to_nat, firstn_len_app. reflexivity.
Qed.

Lemma ra_i32_any (d : bytes) (o : Z) (b : bytes) :
  reads_at d o b -> length b = 4%nat -> exists v, _read_i32 d o = Ok (v, o + 4).
Proof.
  intros H Hl. unfold _read_i32. pose proof (ra_unpack_any _ _ _ H) as U.
  unfold py_len in U. rewrite Hl in U. change (Z.of_nat 4) with 4 in U. rewrite U.
  cbn [bind]. eauto.
Qed.

Lemma ra_u16_raw (d : bytes) (o x : Z) :
  reads_at d o (le_bytes 2 x) -> _read_u16 d o = Ok (x mod 2 ^ 16, o + 2).
Proof.
  intros H. unfold _read_u16.
  pose proof (ra_unpack 2 _ _ _ H) as U. change (Z.of_nat 2) with 2 in U. rewrite U. cbn [bind].
  rewrite le_val_le_bytes. reflexivity.
Qed.

Lemma ra_guid (d : bytes) (o : Z) (b : bytes) :
  reads_at d o b -> length b = 16%nat -> _read_guid d o = (fst (_read_guid b 0), o + 16).
Proof.
  intros H Hl. assert (Hb : py_len b = 16) by (unfold py_len; rewrite Hl; reflexivity).
  assert (H0 : reads_at b 0 b) by (exists [], []; rewrite app_nil_r; split; reflexivity).
  assert (E1 : py_slice d o (o + 16) = b) by (rewrite <- Hb; apply ra_slice; exact H).
  assert (E0 : py_slice b 0 (0 + 16) = b) by (rewrite <- Hb; apply ra_slice; exact H0).
  unfold _read_guid. rewrite E1, E0, Hl. reflexivity.
Qed.

Lemma canonical_guid_rt (g : pystr) :
  canonical_guid g = true -> length (_write_guid g) = 16%nat /\ _read_guid (_write_guid g) 0 = (g, 16).
Proof.
  intros Hg. unfold canonical_guid in Hg.
  destruct (split_on dash g) as [|p1 [|p2 [|p3 [|p4 [|p5 [|]]]]]] eqn:Hs; try discriminate.
  rewrite !andb_true_iff in Hg.
  destruct Hg as [[[[[L1 L2] L3] L4] L5] Hx].
  apply Nat.eqb_eq in L1, L2, L3, L4, L5.
  rewrite !forallb_app, !andb_true_iff in Hx. destruct Hx as [X1 [X2 [X3 [X4 X5]]]].
  destruct (fromhex_group 4 p1) as [b1 [F1 [E1 K1]]]; [lia|assumption|].
  destruct (fromhex_group 2 p2) as [b2 [F2 [E2 K2]]]; [lia|assumption|].
  destruct (fromhex_group 2 p3) as [b3 [F3 [E3 K3]]]; [lia|assumption|].
  destruct (fromhex_group 2 p4) as [b4 [F4 [E4 K4]]]; [lia|assumption|].
  destruct (fromhex_group 6 p5) as [b5 [F5 [E5 K5]]]; [lia|assumption|].
  unfold _write_guid. rewrite Hs, F1, F2, F3, F4, F5. simpl bind.
  rewrite K1, K2, K3, K4, K5. simpl. split.
  - rewrite !length_app, !length_rev. lia.
  - rewrite read_guid_groups by assumption.
    rewrite <- (split_on_join dash g), Hs, E1, E2, E3, E4, E5. reflexivity.
Qed.

Lemma cvs_rt (cvs : list (pystr * Z)) :
  forallb (fun e => canonical_guid (fst e) && i32_ok (snd e)) cvs = true ->
  exists bc,
    write_each (fun e => v <- _write_i32 (snd e) ;; Ok (_write_guid (fst e) ++ v)) cvs = Ok bc /\
    (forall d o, reads_at d o bc ->
       read_n (length cvs) (read_custom_version d) o = Ok (cvs, o + py_len bc)).
Proof.
  induction cvs as [|[g v] cvs IH]; intros H.
  - exists []. split; [reflexivity|]. intros d o _. cbn. rewrite Z.add_0_r. reflexivity.
  - cbn [forallb fst snd] in H. apply andb_true_iff in H as [Hgv H].
    apply andb_true_iff in Hgv as [Hg Hv].
    destruct (IH H) as [bc [W R]].
    unfold i32_ok in Hv. destr_bool.
    destruct (canonical_guid_rt g Hg) as [Lg Rg].
    assert (Lw : py_len (_write_guid g) = 16) by (unfold py_len; rewrite Lg; reflexivity).
    exists ((_write_guid g ++ le_bytes 4 (v mod 2 ^ 32)) ++ bc). split.
    + cbn [write_each fst snd]. rewrite write_i32_ok by lia. cbn [bind]. rewrite W. reflexivity.
    + intros d o Hra. apply reads_at_app in Hra as [Q1 Q2]. apply reads_at_app in Q1 as [Hg' Hv'].
      rewrite Lw in Hv'. assert (Bv : - 2 ^ 31 <= v < 2 ^ 31) by lia.
      assert (E : read_custom_version d o = Ok ((g, v), o + 16 + 4)).
      { unfold read_custom_version. rewrite (ra_guid _ _ _ Hg' Lg), Rg. cbn [fst].
        rewrite (ra_i32 _ _ _ Bv Hv'). reflexivity. }
      cbn [read_n length]. rewrite E. cbn [bind].
      rewrite py_len_app, Lw, py_len_le_bytes in Q2. change (Z.of_nat 4) with 4 in Q2.
      replace (o + 16 + 4) with (o + (16 + 4)) by lia.
      rewrite (R _ _ Q2). cbn [bind]. rewrite !py_len_app, Lw, py_len_le_bytes.
      change (Z.of_nat 4) with 4. f_equal. f_equal. lia.
Qed.

Ltac step_read :=
  match goal with
  | |- context [_read_i32 ?d ?o'] =>
    match goal with H : reads_at d ?o (le_bytes 4 (?v mod 2 ^ 32)) |- _ =>
      replace o' with o by lia; rewrite (ra_i32 d o v ltac:(lia) H) end
  | |- context [_read_u16 ?d ?o'] =>
    match goal with H : reads_at d ?o (_write_u16 ?v) |- _ =>
      replace o' with o by lia; rewrite (ra_u16 d o v H), (Z.mod_small v (2 ^ 16)) by lia end
  | |- context [_read_u32 ?d ?o'] =>
    match goal with H : reads_at d ?o (_write_u32 ?v) |- _ =>
      replace o' with o by lia; rewrite (ra_u32 d o v H), (Z.mod_small v (2 ^ 32)) by lia end
  | |- context [_read_string ?d ?o'] =>
    match goal with
    | H : reads_at d ?o ?b, W : _write_string ?s = Ok ?b, F : fstring_ok ?s = true |- _ =>
      replace o' with o by lia; rewrite (ra_string d o s b F W H) end
  end; cbn [bind].

Lemma reads_at_join (d : bytes) (o : Z) (b1 b2 : bytes) :
  reads_at d o b1 -> reads_at d (o + py_len b1) b2 -> reads_at d o (b1 ++ b2).
Proof.
  intros [pre [rest [-> ->]]] [pre' [rest' [E L]]].
  exists pre, (skipn (length b2) rest). split; [|reflexivity].
  assert (Hl : length pre' = (length pre + length b1)%nat)
    by (unfold py_len in L; lia).
  assert (Hs : rest = b2 ++ rest').
  { pose proof (f_equal (skipn (length pre + length b1)) E) as F.
    rewrite app_assoc, <- length_app, skipn_len_app in F.
    rewrite length_app, <- Hl, skipn_len_app in F. exact F. }
  subst rest. rewrite skipn_len_app, <- app_assoc. reflexivity.
Qed.

Lemma header_rt (pre rest : bytes) (h : header) :
  header_ok h = true ->
  exists b, _write_gvas_header h = Ok b /\ firstn 4 b = MAGIC /\
    _read_gvas_header (pre ++ b ++ rest) (py_len pre) = Ok (h, py_len pre + py_len b).
Proof.
  intros Hh. destruct h as [sgv fv [maj mnr pat cl br] fmt cvs cls].
  unfold header_ok in Hh.
  cbn [engine save_game_version file_version custom_versions_format custom_versions
       save_game_class_name major minor patch changelist branch] in Hh.
  repeat rewrite andb_true_iff in Hh.
  destruct Hh as [[[[[[[[[[[[[[[Hsgv Hfv] Hma1] Hma2] Hmi1] Hmi2] Hpa1] Hpa2] Hcl] Hbr] Hf1] Hf2]
                   Hcn] Hcvs] Hcls] Hpl].
  destruct (fstring_write br Hbr) as [bbr Wbr].
  destruct (fstring_write cls Hcls) as [bcls Wcls].
  destruct (cvs_rt cvs Hcvs) as [bcv [Wcv Rcv]].
  unfold i32_ok, u32_ok in *. destr_bool.
  pose proof (py_len_nonneg cvs).
  destruct fv as [a b|a]; destr_bool.
  - eexists. split.
    + unfold _write_gvas_header.
      cbn [engine save_game_version file_version custom_versions_format custom_versions
           save_game_class_name major minor patch changelist branch].
      rewrite (write_i32_ok sgv), (write_i32_ok a), (write_i32_ok b), (write_i32_ok fmt),
        (write_i32_ok (py_len cvs)) by lia.
      rewrite Wbr, Wcv, Wcls. cbn [bind]. rewrite <- !app_assoc. reflexivity.
    + split; [reflexivity|].
      pose proof (reads_at_init pre
        (MAGIC ++ le_bytes 4 (sgv mod 2 ^ 32) ++ le_bytes 4 (a mod 2 ^ 32) ++
         le_bytes 4 (b mod 2 ^ 32) ++ _write_u16 maj ++ _write_u16 mnr ++ _write_u16 pat ++
         _write_u32 cl ++ bbr ++ le_bytes 4 (fmt mod 2 ^ 32) ++
         le_bytes 4 (py_len cvs mod 2 ^ 32) ++ bcv ++ bcls) rest) as R.
      match type of R with reads_at ?d _ _ => set (D := d) in * end.
      repeat (let H' := fresh "R" in apply reads_at_app in R as [H' R]).
      change (py_len MAGIC) with 4 in *.
      rewrite ?py_len_le_bytes, ?py_len_write_u16, ?py_len_write_u32 in *.
      change (Z.of_nat 4) with 4 in *.
      unfold _read_gvas_header.
      match goal with H : reads_at ?d ?o MAGIC |- _ => pose proof (ra_slice _ _ _ H) as E end.
      change (py_len MAGIC) with 4 in E. rewrite E.
      change (negb (str_eqb MAGIC MAGIC)) with false. cbv iota.
      do 5 step_read.
      replace ((0 <=? maj) && (maj <=? 50) && (0 <=? mnr) && (mnr <=? 50)) with true
        by (symmetry; repeat rewrite andb_true_iff; rewrite !Z.leb_le; lia).
      cbn [bind]. do 5 step_read.
      unfold read_custom_versions_pkg. do 2 step_read.
      replace (negb ((0 <=? py_len cvs) && (py_len cvs <=? 10000) && (0 <=? fmt) && (fmt <=? 10)))
        with false by (symmetry; apply negb_false_iff; repeat rewrite andb_true_iff;
                       rewrite !Z.leb_le; lia).
      rewrite py_len_to_nat.
      match goal with
      | H : reads_at D ?o bcv |- context [read_n _ (read_custom_version D) ?o'] =>
        replace o' with o by lia; rewrite (Rcv D o H)
      end. cbn [bind].
      step_read. rewrite Hpl. cbn [assert_ bind].
      rewrite !py_len_app, ?py_len_le_bytes, ?py_len_write_u16, ?py_len_write_u32.
      change (py_len MAGIC) with 4. change (Z.of_nat 4) with 4.
      f_equal. f_equal. lia.
  - match goal with H : (pat <=? 50) && _ = false |- _ => rename H into Hneg end.
    eexists. split.
    + unfold _write_gvas_header.
      cbn [engine save_game_version file_version custom_versions_format custom_versions
           save_game_class_name major minor patch changelist branch].
      rewrite (write_i32_ok sgv), (write_i32_ok a), (write_i32_ok fmt),
        (write_i32_ok (py_len cvs)) by lia.
      rewrite Wbr, Wcv, Wcls. cbn [bind]. reflexivity.
    + split; [reflexivity|].
      pose proof (reads_at_init pre
        (MAGIC ++ le_bytes 4 (sgv mod 2 ^ 32) ++ le_bytes 4 (a mod 2 ^ 32) ++
         _write_u16 maj ++ _write_u16 mnr ++ _write_u16 pat ++
         _write_u32 cl ++ bbr ++ le_bytes 4 (fmt mod 2 ^ 32) ++
         le_bytes 4 (py_len cvs mod 2 ^ 32) ++ bcv ++ bcls) rest) as R.
      match type of R with reads_at ?d _ _ => set (D := d) in * end.
      repeat (let H' := fresh "R" in apply reads_at_app in R as [H' R]).
      change (py_len MAGIC) with 4 in *.
      rewrite ?py_len_le_bytes, ?py_len_write_u16, ?py_len_write_u32 in *.
      change (Z.of_nat 4) with 4 in *.
      (* the engine major and minor, read as [file_version_ue5] by the peek *)
      assert (Rmm : reads_at D (py_len pre + 4 + 4 + 4) (_write_u16 maj ++ _write_u16 mnr)).
      { apply reads_at_join; [assumption|rewrite py_len_write_u16; assumption]. }
      destruct (ra_i32_any _ _ _ Rmm) as [ue5 Hue5];
        [unfold _write_u16; rewrite length_app, !le_bytes_length; reflexivity|].
      (* the low half of the changelist, read as the minor by the peek *)
      assert (Rcl : reads_at D (py_len pre + 4 + 4 + 4 + 2 + 2 + 2)
                      (le_bytes 2 (Z.land cl (2 ^ 32 - 1)))).
      { match goal with H : reads_at D _ (_write_u32 cl) |- _ =>
          unfold _write_u32 in H; rewrite (le_bytes_split 2 2) in H;
          apply reads_at_app in H as [H _]; exact H end. }
      pose proof (ra_u16_raw _ _ _ Rcl) as Hmin.
      rewrite land_mask, (Z.mod_small cl) in Hmin by lia.
      unfold _read_gvas_header.
      match goal with H : reads_at ?d ?o MAGIC |- _ => pose proof (ra_slice _ _ _ H) as E end.
      change (py_len MAGIC) with 4 in E. rewrite E.
      change (negb (str_eqb MAGIC MAGIC)) with false. cbv iota.
      do 2 step_read. rewrite Hue5. cbn [bind]. step_read.
      replace (py_len pre + 4 + 4 + 4 + 4 + 2) with (py_len pre + 4 + 4 + 4 + 2 + 2 + 2) by lia.
      rewrite Hmin. cbn [bind].
      replace ((0 <=? pat) && (pat <=? 50) && (0 <=? cl mod 2 ^ 16) && (cl mod 2 ^ 16 <=? 50))
        with false.
      2:{ replace (0 <=? pat) with true by (symmetry; apply Z.leb_le; lia).
          replace (0 <=? cl mod 2 ^ 16) with true
            by (symmetry; apply Z.leb_le; apply Z.mod_pos_bound; lia).
          revert Hneg. destruct (pat <=? 50), (cl mod 2 ^ 16 <=? 50); cbn; congruence. }
      cbn [bind]. do 5 step_read.
      unfold read_custom_versions_pkg. do 2 step_read.
      replace (negb ((0 <=? py_len cvs) && (py_len cvs <=? 10000) && (0 <=? fmt) && (fmt <=? 10)))
        with false by (symmetry; apply negb_false_iff; repeat rewrite andb_true_iff;
                       rewrite !Z.leb_le; lia).
      rewrite py_len_to_nat.
      match goal with
      | H : reads_at D ?o bcv |- context [read_n _ (read_custom_version D) ?o'] =>
        replace o' with o by lia; rewrite (Rcv D o H)
      end. cbn [bind].
      step_read. rewrite Hpl. cbn [assert_ bind].
      rewrite !py_len_app, ?py_len_le_bytes, ?py_len_write_u16, ?py_len_write_u32.
      change (py_len MAGIC) with 4. change (Z.of_nat 4) with 4.
      f_equal. f_equal. lia.
Qed.

Lemma write_i32_inv (v : Z) (x : bytes) :
  _write_i32 v = Ok x -> - 2 ^ 31 <= v < 2 ^ 31 /\ x = le_bytes 4 (v mod 2 ^ 32).
Proof.
  unfold _write_i32. destruct ((- 2 ^ 31 <=? v) && (v <? 2 ^ 31)) eqn:E; intros H; [|discriminate].
  injection H as <-. destr_bool. split; [lia|reflexivity].
Qed.

(** X13.  A header written with the single-version layout ([FVSingle])
    whose engine patch and low changelist half are both at most 50 is taken
    for the dual layout by [_read_gvas_header]'s peek: whenever the reader
    succeeds on the written bytes, the header it returns has a [FVDual]
    file version, so it is never the header that was written. *)
Theorem single_version_misread (pre rest b : bytes) (h : header) (a : Z)
    (Hw : _write_gvas_header h = Ok b) (Hfv : file_version h = FVSingle a)
    (Hp : patch (engine h) mod 2 ^ 16 <= 50) (Hc : changelist (engine h) mod 2 ^ 16 <= 50)
    (h' : header) (o' : Z)
    (Hr : _read_gvas_header (pre ++ b ++ rest) (py_len pre) = Ok (h', o')) :
  h' <> h /\ exists x y, file_version h' = FVDual x y.
Proof.
  destruct h as [sgv fv [maj mnr pat cl br] fmt cvs cls].
  cbn [engine file_version patch changelist] in Hfv, Hp, Hc. subst fv.
  unfold _write_gvas_header in Hw.
  cbn [engine save_game_version file_version custom_versions_format custom_versions
       save_game_class_name major minor patch changelist branch] in Hw.
  destruct (_write_i32 sgv) as [bs|] eqn:Es; [|discriminate]. cbn [bind] in Hw.
  destruct (_write_i32 a) as [ba|] eqn:Ea; [|discriminate]. cbn [bind] in Hw.
  destruct (_write_string br) as [bbr|]; [|discriminate]. cbn [bind] in Hw.
  destruct (_write_i32 fmt) as [bf|]; [|discriminate]. cbn [bind] in Hw.
  destruct (_write_i32 (py_len cvs)) as [bn|]; [|discriminate]. cbn [bind] in Hw.
  match type of Hw with bind ?m _ = _ => destruct m as [bcv|]; [|discriminate] end.
  cbn [bind] in Hw.
  destruct (_write_string cls) as [bcls|]; [|discriminate]. cbn [bind] in Hw.
  apply write_i32_inv in Es as [Bs ->]. apply write_i32_inv in Ea as [Ba ->].
  match type of Hw with Ok ?x = Ok b => assert (Eb : b = x) by congruence end. subst b.
  revert Hr.
  match goal with |- _read_gvas_header (pre ++ ?B ++ rest) _ = _ -> _ =>
    pose proof (reads_at_init pre B rest) as R end.
  match type of R with reads_at ?d _ _ => set (D := d) in * end.
  repeat (let H' := fresh "R" in apply reads_at_app in R as [H' R]).
  change (py_len MAGIC) with 4 in *.
  rewrite ?py_len_le_bytes, ?py_len_write_u16, ?py_len_write_u32 in *.
  change (Z.of_nat 4) with 4 in *.
  assert (Rmm : reads_at D (py_len pre + 4 + 4 + 4) (_write_u16 maj ++ _write_u16 mnr)).
  { apply reads_at_join; [assumption|rewrite py_len_write_u16; assumption]. }
  destruct (ra_i32_any _ _ _ Rmm) as [ue5 Hue5];
    [unfold _write_u16; rewrite length_app, !le_bytes_length; reflexivity|].
  assert (Rcl : reads_at D (py_len pre + 4 + 4 + 4 + 2 + 2 + 2)
                  (le_bytes 2 (Z.land cl (2 ^ 32 - 1)))).
  { match goal with H : reads_at D _ (_write_u32 cl) |- _ =>
      unfold _write_u32 in H; rewrite (le_bytes_split 2 2) in H;
      apply reads_at_app in H as [H _]; exact H end. }
  pose proof (ra_u16_raw _ _ _ Rcl) as Hmin.
  rewrite land_mask, Z.mod_mod_divide in Hmin
    by (try lia; exists (2 ^ 16); reflexivity).
  assert (Rpat : reads_at D (py_len pre + 4 + 4 + 4 + 2 + 2) (_write_u16 pat)) by assumption.
  pose proof (ra_u16 _ _ _ Rpat) as Hmaj.
  unfold _read_gvas_header.
  match goal with H : reads_at ?d ?o MAGIC |- _ => pose proof (ra_slice _ _ _ H) as E end.
  change (py_len MAGIC) with 4 in E. rewrite E.
  change (negb (str_eqb MAGIC MAGIC)) with false. cbv iota.
  do 2 step_read. rewrite Hue5. cbn [bind].
  replace (py_len pre + 4 + 4 + 4 + 4) with (py_len pre + 4 + 4 + 4 + 2 + 2) by lia.
  rewrite Hmaj. cbn [bind].
  rewrite Hmin. cbn [bind].
  replace ((0 <=? pat mod 2 ^ 16) && (pat mod 2 ^ 16 <=? 50) && (0 <=? cl mod 2 ^ 16)
           && (cl mod 2 ^ 16 <=? 50)) with true
    by (symmetry; repeat rewrite andb_true_iff; rewrite !Z.leb_le;
        pose proof (Z.mod_pos_bound pat (2 ^ 16)); pose proof (Z.mod_pos_bound cl (2 ^ 16)); lia).
  cbn [bind]. intros Hr. inv_ok Hr. split.
  - intros Eh. apply (f_equal file_version) in Eh. discriminate Eh.
  - cbn [file_version]. eauto.
Qed.

Lemma write_string_min (s b : pystr) : _write_string s = Ok b -> 4 <= py_len b.
Proof.
  unfold _write_string. intros H.
  destruct s as [|c r].
  - apply write_i32_inv in H as [_ ->]. rewrite py_len_le_bytes. change (Z.of_nat 4) with 4. lia.
  - destruct (_write_i32 (py_len (c :: r) + 1)) as [l1|] eqn:E; [|discriminate]. cbn [bind] in H.
    apply write_i32_inv in E as [_ ->].
    assert (K : exists t, b = le_bytes 4 ((py_len (c :: r) + 1) mod 2 ^ 32) ++ t).
    { destruct (utf8_encode (c :: r)) as [enc|[]]; try discriminate.
      - injection H as <-. eexists. reflexivity.
      - destruct (_write_i32 _); cbn [bind] in H; [|discriminate]. injection H as <-. eexists. reflexivity. }
    destruct K as [t ->]. rewrite py_len_app, py_len_le_bytes. pose proof (py_len_nonneg t).
    change (Z.of_nat 4) with 4. lia.
Qed.

Lemma write_property_len (p : property) (b : bytes) : _write_property p = Ok b -> 8 <= py_len b.
Proof.
  intros H. destruct p; cbn [_write_property] in H;
    apply bind_ok in H as [n [Wn H]]; apply bind_ok in H as [t [Wt H]];
    apply bind_ok in H as [body [_ H]];
    match type of H with Ok ?x = Ok b => assert (E : b = x) by congruence end; subst b;
    apply write_string_min in Wn, Wt;
    rewrite !py_len_app, !py_len_write_u32; pose proof (py_len_nonneg body); lia.
Qed.

Lemma single_version_misread_witness :
  exists b h' o', _write_gvas_header sample_header_single = Ok b /\
    _read_gvas_header ([] ++ b ++ []) (py_len (@nil Z)) = Ok (h', o') /\
    h' <> sample_header_single /\ exists x y, file_version h' = FVDual x y.
Proof.
  do 3 eexists. split; [vm_compute; reflexivity|]. split; [vm_compute; reflexivity|].
  eapply (single_version_misread [] [] _ sample_header_single 522);
    [vm_compute; reflexivity|reflexivity|vm_compute; discriminate|vm_compute; discriminate|].
  vm_compute. reflexivity.
Defined.

(** X12.  A header whose fields fit their encodings ([header_ok]) is
    written by [_write_gvas_header] and read back by [_read_gvas_header] as
    the same header, ending just after the written bytes. *)
Theorem header_round_trip (pre rest : bytes) (h : header) (Hh : header_ok h = true) :
  exists b, _write_gvas_header h = Ok b /\
    _read_gvas_header (pre ++ b ++ rest) (py_len pre) = Ok (h, py_len pre + py_len b).
Proof. destruct (header_rt pre rest h Hh) as [b [W [_ R]]]. eauto. Qed.

Lemma header_round_trip_witness :
  header_ok sample_header_dual = true /\
  exists b, _write_gvas_header sample_header_dual = Ok b /\
    _read_gvas_header ([] ++ b ++ []) (py_len (@nil Z)) = Ok (sample_header_dual, py_len (@nil Z) + py_len b).
Proof.
  split; [vm_compute; reflexivity|]. apply header_round_trip. vm_compute. reflexivity.
Defined.

(** ** The save-file facade *)

Lemma write_each_len (ps : list property) : forall bs,
  write_each _write_property ps = Ok bs -> 8 * Z.of_nat (length ps) <= py_len bs.
Proof.
  induction ps as [|p ps IH]; intros bs H; cbn [write_each] in H.
  - injection H as <-. cbn. lia.
  - apply bind_ok in H as [bp [Wp H]]. apply bind_ok in H as [br [Wr H]].
    injection H as <-. apply write_property_len in Wp. apply IH in Wr.
    rewrite py_len_app. cbn [length]. lia.
Qed.

Lemma write_properties_len (ps : list property) (b : bytes) :
  _write_properties ps = Ok b -> Z.of_nat (length ps) + 9 <= py_len b.
Proof.
  unfold _write_properties. intros H. apply bind_ok in H as [bs [Wb H]].
  rewrite write_none in H. cbn [bind] in H. injection H as <-.
  apply write_each_len in Wb. rewrite py_len_app. change (py_len none_bytes) with 9.
  pose proof (py_len_nonneg bs). lia.
Qed.

Lemma is_prefix_magic (bh pb : bytes) : firstn 4 bh = MAGIC -> is_prefix MAGIC (bh ++ pb) = true.
Proof.
  intros Hm. unfold is_prefix. change (length MAGIC) with 4%nat.
  assert (L : (4 <= length bh)%nat).
  { pose proof (length_firstn 4 bh) as F. rewrite Hm in F. change (length MAGIC) with 4%nat in F. lia. }
  rewrite firstn_app. replace (4 - length bh)%nat with 0%nat by lia.
  rewrite firstn_O, app_nil_r, Hm. reflexivity.
Qed.

(** X14.  A save file whose header fits its encodings ([header_ok]) and
    whose properties are scalar records that fit theirs is written by
    [write_savefile] and read back by [read_savefile] as the same save file,
    whatever the decompressors and the compression argument. *)
Theorem savefile_round_trip zl zr gz lz zs (s : SaveFile) (c : pystr)
    (Hh : header_ok (header_of s) = true)
    (Hps : forallb scalar_record_ok (properties s) = true) :
  exists b, write_savefile s = Ok b /\ read_savefile zl zr gz lz zs b c = Ok s.
Proof.
  destruct s as [h ps]; cbn [header_of properties] in *.
  destruct (header_rt [] [] h Hh) as [bh [Wh [Mg _]]].
  destruct (properties_rt ps [] [] (length ps + 2) Hps ltac:(lia)) as [pb [Wp _]].
  exists (bh ++ pb). split.
  { unfold write_savefile. cbn [header_of properties]. rewrite Wh. cbn [bind].
    rewrite Wp. reflexivity. }
  pose proof (write_properties_len ps pb Wp) as Lp.
  unfold read_savefile. rewrite !(is_prefix_magic _ _ Mg). cbn [bind].
  destruct (header_rt [] pb h Hh) as [bh' [Wh' [_ Rh]]].
  rewrite Wh in Wh'. injection Wh' as <-. cbn [app] in Rh.
  change (py_len (@nil Z)) with 0 in Rh. rewrite Rh. cbn [bind].
  destruct (properties_rt ps bh [] (S (length (bh ++ pb))) Hps) as [pb' [Wp' [_ Rp]]].
  { rewrite length_app. unfold py_len in Lp. lia. }
  rewrite Wp in Wp'. injection Wp' as <-. rewrite app_nil_r in Rp.
  rewrite py_len_app. replace (0 + py_len bh) with (py_len bh) by lia.
  rewrite Rp. reflexivity.
Qed.

Lemma savefile_round_trip_witness :
  header_ok (header_of sample_save) = true /\
  forallb scalar_record_ok (properties sample_save) = true /\
  exists b, write_savefile sample_save = Ok b /\
    read_savefile fail_codec fail_codec fail_codec None None b (lit "auto") = Ok sample_save.
Proof.
  split; [vm_compute; reflexivity|]. split; [vm_compute; reflexivity|].
  apply savefile_round_trip; vm_compute; reflexivity.
Defined.

Lemma find_magic_spec (d : bytes) :
  match find_magic d with
  | Some i => 0 <= i /\ magic_at d i = true /\ (forall j, 0 <= j < i -> magic_at d j = false)
  | None => forall j, 0 <= j -> magic_at d j = false
  end.
Proof.
  pose (g := fix go (k : nat) (idx : Z) : option Z :=
    match k with O => None | S k' => if magic_at d idx then Some idx else go k' (idx + 1) end).
  assert (Eq : find_magic d = g 253%nat 0) by reflexivity. rewrite Eq.
  assert (E0 : forall idx, g O idx = None) by reflexivity.
  assert (ES : forall k idx, g (S k) idx = if magic_at d idx then Some idx else g k (idx + 1))
    by reflexivity.
  assert (G : forall k idx, 0 <= idx -> Z.of_nat k + idx = 253 ->
    (forall j, 0 <= j < idx -> magic_at d j = false) ->
    match g k idx with
    | Some i => 0 <= i /\ magic_at d i = true /\ (forall j, 0 <= j < i -> magic_at d j = false)
    | None => forall j, 0 <= j -> magic_at d j = false
    end).
  { induction k as [|k IH]; intros idx H0 Hk Hb.
    - rewrite E0. intros j Hj. destruct (Z.lt_ge_cases j idx) as [Lt|Ge]; [apply Hb; lia|].
      unfold magic_at. replace (j + 4 <=? Z.min 256 (py_len d)) with false; [reflexivity|].
      symmetry. apply Z.leb_gt. pose proof (Z.le_min_l 256 (py_len d)). lia.
    - rewrite ES. destruct (magic_at d idx) eqn:M; [auto|].
      apply IH; [lia|lia|]. intros j Hj.
      destruct (Z.eq_dec j idx) as [->|]; [exact M|apply Hb; lia]. }
  apply G; [lia|reflexivity|intros; lia].
Qed.

Lemma magic_split (bh : bytes) : firstn 4 bh = MAGIC -> bh = MAGIC ++ skipn 4 bh.
Proof. intros Hm. rewrite <- Hm at 1. symmetry. apply firstn_skipn. Qed.

Lemma magic_at_reads (d : bytes) (o : Z) :
  reads_at d o MAGIC -> o + 4 <= 256 -> magic_at d o = true.
Proof.
  intros R Ho. unfold magic_at. pose proof (ra_slice _ _ _ R) as S.
  change (py_len MAGIC) with 4 in S. rewrite S.
  destruct R as [pre [rest [-> ->]]]. rewrite !py_len_app. change (py_len MAGIC) with 4.
  pose proof (py_len_nonneg rest).
  replace (py_len pre + 4 <=? Z.min 256 (py_len pre + (4 + py_len rest))) with true
    by (symmetry; apply Z.leb_le; lia).
  reflexivity.
Qed.

(** X15.  With compression [none] (in any letter case), a save file
    written by [write_savefile] and preceded by at most 252 bytes is found
    by [read_savefile]'s search for the magic and read back as the same save
    file, provided no [GVAS] starts inside the leading bytes (within the
    first 256 bytes). *)
Theorem embedded_savefile_read zl zr gz lz zs (junk b : bytes) (s : SaveFile) (c : pystr)
    (Hc : str_eqb (ascii_lower c) (lit "none") = true)
    (Hh : header_ok (header_of s) = true)
    (Hps : forallb scalar_record_ok (properties s) = true)
    (Hw : write_savefile s = Ok b)
    (Hj : py_len junk <= 252)
    (Hno : forall j, 0 <= j < py_len junk -> magic_at (junk ++ b) j = false) :
  read_savefile zl zr gz lz zs (junk ++ b) c = Ok s.
Proof.
  destruct s as [h ps]; cbn [header_of properties] in *.
  unfold write_savefile in Hw. cbn [header_of properties] in Hw.
  apply bind_ok in Hw as [bh [Wh Hw]]. apply bind_ok in Hw as [pb [Wp Hw]].
  injection Hw as <-.
  destruct (header_rt junk pb h Hh) as [bh' [Wh' [Mg Rh]]].
  rewrite Wh in Wh'. injection Wh' as <-.
  pose proof (write_properties_len ps pb Wp) as Lp.
  destruct (properties_rt ps (junk ++ bh) [] (S (length (junk ++ bh ++ pb))) Hps) as [pb' [Wp' [_ Rp]]].
  { rewrite !length_app. unfold py_len in Lp. lia. }
  rewrite Wp in Wp'. injection Wp' as <-. rewrite app_nil_r, <- app_assoc in Rp.
  assert (RM : reads_at (junk ++ bh ++ pb) (py_len junk) MAGIC).
  { exists junk, (skipn 4 bh ++ pb). split; [|reflexivity].
    rewrite (magic_split bh Mg) at 1. rewrite <- app_assoc. reflexivity. }
  pose proof (magic_at_reads _ _ RM ltac:(lia)) as Mj.
  (* the offset [read_savefile] starts the header at *)
  assert (Off : (if is_prefix MAGIC (junk ++ bh ++ pb) then Ok 0
                 else match find_magic (junk ++ bh ++ pb) with
                      | Some idx => Ok idx | None => Err ValueError end) = Ok (py_len junk)).
  { destruct (is_prefix MAGIC (junk ++ bh ++ pb)) eqn:P.
    - destruct (Z.eq_dec (py_len junk) 0) as [E|NE]; [rewrite E; reflexivity|].
      exfalso. unfold is_prefix in P. change (length MAGIC) with 4%nat in P.
      unfold str_eqb in P. destruct (list_eq_dec _ _ _) as [F|]; [|discriminate].
      assert (R0 : reads_at (junk ++ bh ++ pb) 0 MAGIC).
      { exists [], (skipn 4 (junk ++ bh ++ pb)). split; [|reflexivity].
        rewrite <- F at 1. symmetry. apply firstn_skipn. }
      pose proof (py_len_nonneg junk).
      specialize (Hno 0 ltac:(lia)).
      rewrite (magic_at_reads _ _ R0 ltac:(lia)) in Hno. discriminate.
    - pose proof (find_magic_spec (junk ++ bh ++ pb)) as FM.
      destruct (find_magic (junk ++ bh ++ pb)) as [i|].
      + destruct FM as [Hi0 [Mi Hlt]]. f_equal.
        destruct (Z.lt_trichotomy i (py_len junk)) as [Lt|[Eq|Gt]]; [|exact Eq|].
        * rewrite Hno in Mi; [discriminate|lia].
        * rewrite Hlt in Mj; [discriminate|pose proof (py_len_nonneg junk); lia].
      + rewrite FM in Mj; [discriminate|apply py_len_nonneg]. }
  unfold read_savefile.
  destruct (is_prefix MAGIC (junk ++ bh ++ pb)) eqn:P.
  - rewrite P. rewrite Off. cbn [bind]. rewrite Rh. cbn [bind].
    rewrite !py_len_app in *. rewrite !Z.add_assoc. rewrite Rp. reflexivity.
  - unfold decompress_payload. rewrite Hc. rewrite P.
    rewrite Off, P. cbn [bind]. rewrite Rh. cbn [bind].
    rewrite !py_len_app in *. rewrite !Z.add_assoc. rewrite Rp. reflexivity.
Qed.

Lemma embedded_savefile_read_witness :
  exists b, write_savefile sample_save = Ok b /\
    read_savefile fail_codec fail_codec fail_codec None None ([1; 2; 3] ++ b) (lit "NONE")
      = Ok sample_save.
Proof.
  eexists. split; [vm_compute; reflexivity|].
  eapply (embedded_savefile_read _ _ _ _ _ [1; 2; 3]);
    [vm_compute; reflexivity|vm_compute; reflexivity|vm_compute; reflexivity
    |vm_compute; reflexivity|vm_compute; discriminate|].
  intros j Hj. change (py_len [1; 2; 3]) with 3 in Hj.
  assert (j = 0 \/ j = 1 \/ j = 2) as [->|[->| ->]] by lia; vm_compute; reflexivity.
Defined.


(** ** The compression envelope *)

Lemma explicit_codec_ok (n : string) (r : bytes + pystr) (out : bytes) :
  explicit_codec n r = Ok out -> r = inl out.
Proof. destruct r; cbn; intros H; congruence. Qed.

Lemma first_some_in (l : list (unit -> option bytes)) (out : bytes) :
  first_some l = Some out -> Exists (fun t => t tt = Some out) l.
Proof.
  induction l as [|t l IH]; cbn; [discriminate|].
  destruct (t tt) eqn:E; intros H; [injection H as <-; left; exact E|right; auto].
Qed.

Lemma if_none_some (b : bool) (x : option bytes) (out : bytes) :
  (if b then x else None) = Some out -> x = Some out.
Proof. destruct b; [auto|discriminate]. Qed.

Lemma opt_of_some (r : bytes + pystr) (out : bytes) : opt_of r = Some out -> r = inl out.
Proof. destruct r; cbn; congruence. Qed.

Lemma try_gzip_some gz (raw out : bytes) : _try_gzip gz raw = Some out -> gz raw = inl out.
Proof.
  unfold _try_gzip. destruct (is_prefix _ _); [|apply opt_of_some].
  destruct (opt_of (gz raw)) eqn:E; intros H; [|discriminate].
  injection H as <-. apply opt_of_some. exact E.
Qed.

Lemma try_opt_some (c : option (bytes -> bytes + pystr)) (raw out : bytes) :
  match c with None => None | Some f => opt_of (f raw) end = Some out ->
  exists f, c = Some f /\ f raw = inl out.
Proof. destruct c as [f|]; [intros H; exists f; split; [reflexivity|apply opt_of_some; exact H]|discriminate]. Qed.

(** X17.  Unless the method is [none] (in any letter case), every
    successful result of [decompress_payload] is the output of one of the
    decompressors applied to the whole input: zlib, raw deflate, gzip, or
    an lz4 or zstd module that is present.  It never returns the input
    itself or anything else. *)
Theorem decompress_output_from_codec zl zr gz lz zs (raw m out : bytes)
    (Hm : str_eqb (ascii_lower m) (lit "none") = false)
    (H : decompress_payload zl zr gz lz zs raw m = Ok out) :
  zl raw = inl out \/ zr raw = inl out \/ gz raw = inl out \/
  (exists f, lz = Some f /\ f raw = inl out) \/ (exists f, zs = Some f /\ f raw = inl out).
Proof.
  unfold decompress_payload in H. rewrite Hm in H.
  destruct (str_eqb _ (lit "zlib")); [left; eapply explicit_codec_ok; eassumption|].
  destruct (str_eqb _ (lit "deflate")); [right; left; eapply explicit_codec_ok; eassumption|].
  destruct (str_eqb _ (lit "gzip")); [right; right; left; eapply explicit_codec_ok; eassumption|].
  destruct (str_eqb _ (lit "lz4")).
  { destruct lz as [f|]; [|discriminate]. right; right; right; left.
    exists f. split; [reflexivity|eapply explicit_codec_ok; eassumption]. }
  destruct (str_eqb _ (lit "zstd")).
  { destruct zs as [f|]; [|discriminate]. right; right; right; right.
    exists f. split; [reflexivity|eapply explicit_codec_ok; eassumption]. }
  destruct (first_some _) as [o|] eqn:F; [injection H as <-|discriminate].
  apply first_some_in, Exists_exists in F as [t [Hin Ht]].
  cbn [In] in Hin.
  destruct Hin as [<-|[<-|[<-|[<-|[<-|[<-|[<-|[<-|[]]]]]]]]]; cbn beta in Ht;
    repeat match type of Ht with (if _ then ?x else None) = _ => apply if_none_some in Ht end.
  - right; right; left. exact (try_gzip_some _ _ _ Ht).
  - do 4 right. exact (try_opt_some _ _ _ Ht).
  - do 3 right; left. exact (try_opt_some _ _ _ Ht).
  - left. exact (opt_of_some _ _ Ht).
  - right; left. exact (opt_of_some _ _ Ht).
  - right; right; left. exact (try_gzip_some _ _ _ Ht).
  - do 3 right; left. exact (try_opt_some _ _ _ Ht).
  - do 4 right. exact (try_opt_some _ _ _ Ht).
Qed.

Lemma decompress_output_from_codec_witness :
  exists out, decompress_payload fail_codec fail_codec (fun _ => inl [1; 2; 3]) None None
      [31; 139; 8] (lit "auto") = Ok out /\
  (fail_codec [31; 139; 8] = inl out \/ fail_codec [31; 139; 8] = inl out \/
   (fun _ : bytes => @inl bytes pystr [1; 2; 3]) [31; 139; 8] = inl out \/
   (exists f, @None (bytes -> bytes + pystr) = Some f /\ f [31; 139; 8] = inl out) \/
   (exists f, @None (bytes -> bytes + pystr) = Some f /\ f [31; 139; 8] = inl out)).
Proof.
  eexists. split; [vm_compute; reflexivity|].
  apply (decompress_output_from_codec fail_codec fail_codec (fun _ => inl [1; 2; 3]) None None
    [31; 139; 8] (lit "auto")); vm_compute; reflexivity.
Defined.
